(** * The publish store module (src/store/modules/publish.ts)

    A shallow embedding of the Vuex module that orchestrates package builds:
    the platform registry, the publish state with its four mutations, and the
    three asynchronous actions [build], [buildAppx] and [buildTeams].

    The actions are written in the source as
    [new Promise(async (resolve, reject) => { ... })].  Two facts of that
    idiom shape everything below and are modelled explicitly:
    - [reject] and [resolve] settle the promise only the first time either
      is called, and neither of them leaves the executor: the statements
      after a [reject(...)] still run;
    - an exception that leaves the [async] executor rejects the executor's
      own (discarded) promise, not the one handed to the caller.  *)

From Stdlib Require Import String Ascii List ZArith Bool Lia DecimalString.
Import ListNotations.
Open Scope string_scope.
Set Warnings "-register-all".

(** ** JavaScript values

    The values that cross the untyped boundaries of the module: what the
    HTTP client hands back, what [JSON.parse] produces, what ends up as a
    rejection reason.  These are the JSON values plus [undefined].  A number
    is kept as the decimal [mantissa * 10 ^ exponent] it was written as. *)

Inductive JsValue : Type :=
| JUndefined
| JNull
| JBool (b : bool)
| JNumber (mantissa exponent : Z)
| JString (s : string)
| JArray (items : list JsValue)
| JObject (props : list (string * JsValue)).

(** A decimal becomes the number zero when it is zero or when it is so small
    that the nearest double is zero: at most [2 ^ -1075], half of the
    smallest subnormal. *)
Definition number_is_zero (m e : Z) : bool :=
  if (0 <=? e)%Z then (m =? 0)%Z
  else (Z.abs m * 2 ^ 1075 <=? 10 ^ (- e))%Z.

(** ToBoolean: what [!v], [v ? a : b] and [v || w] test. *)
Definition truthy (v : JsValue) : bool :=
  match v with
  | JUndefined | JNull => false
  | JBool b => b
  | JNumber m e => negb (number_is_zero m e)
  | JString s => negb (s =? EmptyString)
  | JArray _ | JObject _ => true
  end.

Definition falsy (v : JsValue) : bool := negb (truthy v).

(** [a || b] *)
Definition js_or (a b : JsValue) : JsValue := if truthy a then a else b.

(** A field typed [string | null] (or a [string] the code tests for
    absence) is an [option string]; [None] is the absent value. *)
Definition of_opt (o : option string) : JsValue :=
  match o with
  | Some s => JString s
  | None => JNull
  end.

Definition present (o : option string) : bool := truthy (of_opt o).

(** The first binding of a name; property lists hold each name once. *)
Fixpoint own_prop (k : string) (ps : list (string * JsValue)) : option JsValue :=
  match ps with
  | [] => None
  | (k', v) :: rest => if k =? k' then Some v else own_prop k rest
  end.

(** What a thrown value is.  The HTTP client throws an error that carries
    the response when the service answered, and none when it did not. *)
Record Response : Type := mkResponse {
  data : JsValue;
  statusText : string
}.

Inductive Thrown : Type :=
| TypeError
| SyntaxError
| AxiosError (response : option Response).

(** The result of evaluating an expression or a statement. *)
Inductive Completion (A : Type) : Type :=
| Normal (a : A)
| Throw (e : Thrown).
Arguments Normal {A} a.
Arguments Throw {A} e.

(** [v.k], for the names this module reads ([archive], [error] and the
    Teams fields): none of them is a property of a primitive or of an
    array, so only objects answer, and [undefined] and [null] throw. *)
Definition get_prop (v : JsValue) (k : string) : Completion JsValue :=
  match v with
  | JUndefined | JNull => Throw TypeError
  | JObject ps =>
      match own_prop k ps with
      | Some x => Normal x
      | None => Normal JUndefined
      end
  | _ => Normal JUndefined
  end.

(** ** Strings *)

Definition LF : string := String "010"%char EmptyString.

(** [hay.includes(needle)] *)
Fixpoint includes (hay needle : string) : bool :=
  prefix needle hay
  || match hay with
     | EmptyString => false
     | String _ rest => includes rest needle
     end.

(** [needle] occurs somewhere in [hay]. *)
Definition occurs_in (needle hay : string) : Prop :=
  exists before after, hay = before ++ needle ++ after.

(** ** The platform registry (lines 6-16) *)

Module platforms.
Definition web : string := "web".
Definition windows10 : string := "windows10".
Definition windows : string := "windows".
Definition ios : string := "ios".
Definition android : string := "android".
Definition androidTWA : string := "android-twa".
Definition samsung : string := "samsung".
Definition msteams : string := "msteams".
Definition all : string := "All".
End platforms.

(** ** The publish state and its mutations (lines 27-32, 98-103, 225-238) *)

Record State : Type := mkState {
  status : option bool;
  archiveLink : JsValue;
  appXLink : JsValue;
  downloadDisabled : bool
}.

Definition state : State :=
  {| status := None; archiveLink := JNull; appXLink := JNull;
     downloadDisabled := false |}.

Inductive Mutation : Type :=
| UPDATE_STATUS (status : bool)
| UPDATE_ARCHIVELINK (url : JsValue)
| UPDATE_APPXLINK (url : JsValue)
| UPDATE_DOWNLOAD_DISABLED (disabled : bool).

Definition mutations (st : State) (m : Mutation) : State :=
  match m with
  | UPDATE_STATUS b =>
      {| status := Some b; archiveLink := archiveLink st;
         appXLink := appXLink st; downloadDisabled := downloadDisabled st |}
  | UPDATE_ARCHIVELINK url =>
      {| status := status st; archiveLink := url;
         appXLink := appXLink st; downloadDisabled := downloadDisabled st |}
  | UPDATE_APPXLINK url =>
      {| status := status st; archiveLink := archiveLink st;
         appXLink := url; downloadDisabled := downloadDisabled st |}
  | UPDATE_DOWNLOAD_DISABLED d =>
      {| status := status st; archiveLink := archiveLink st;
         appXLink := appXLink st; downloadDisabled := d |}
  end.

(** ** What the actions read and receive *)

(** Modelled from the spec: the declaration of [RootState] (module [store])
    is not part of the sources.  Section 6 of the specification gives the
    two identifiers the actions read, [rootState.generator.manifestId] and
    [rootState.serviceworker.serviceworker], as optional strings; the
    absent value is [null], which a template literal renders as the text
    [null]. *)
Record RootState : Type := mkRootState {
  manifestId : option string;
  serviceworker : option string
}.

Definition render (o : option string) : string :=
  match o with
  | Some s => s
  | None => "null"
  end.

(** The parameter of [build] (line 110).  [platform] is declared a string
    but tested for absence, so it is a value; [options] is
    [string[] | undefined]. *)
Record BuildParams : Type := mkBuildParams {
  platform : JsValue;
  href : string;
  options : option (list string)
}.

Definition of_options (o : option (list string)) : JsValue :=
  match o with
  | Some l => JArray (map JString l)
  | None => JUndefined
  end.

(** [AppxParams] (lines 34-39): four fields of type [string | null]. *)
Record AppxParams : Type := mkAppxParams {
  publisher : option string;
  publisher_id : option string;
  package : option string;
  version : option string
}.

(** The parameter of [buildTeams] (line 112). *)
Record TeamsBuildParams : Type := mkTeamsBuildParams {
  teams_href : string;
  teams_options : option (list string)
}.

(** The fields of [TeamsParams] (lines 88-96) that line 206 tests, and
    what it means for a decoded value to have one: reading it yields a
    truthy value. *)
Definition teams_required : list string :=
  [ "publisherName"; "longDescription"; "shortDescription";
    "privacyUrl"; "termsOfUseUrl"; "colorImageFile" ].

Definition has_field (decoded : JsValue) (k : string) : bool :=
  match get_prop decoded k with
  | Normal v => truthy v
  | Throw _ => false
  end.

(** ** The HTTP client *)

Record Request : Type := mkRequest {
  url : string;
  body : JsValue
}.

(** [$post] resolves with the body of the answer or throws. *)
Inductive PostOutcome : Type :=
| Responded (result : JsValue)
| Failed (response : option Response).

(** ** The executor of a promise

    What one run of an executor leaves behind: how the promise handed to the
    caller is settled, every reason [reject] was called with (in order),
    every request handed to the HTTP client, and the publish state. *)

Inductive Settlement : Type :=
| Pending
| Fulfilled
| Rejected (reason : JsValue).

Record Run : Type := mkRun {
  promise : Settlement;
  rejections : list JsValue;
  requests : list Request;
  store : State
}.

Definition start (st : State) : Run :=
  {| promise := Pending; rejections := []; requests := []; store := st |}.

(** Only a pending promise can be settled. *)
Definition settle (p new : Settlement) : Settlement :=
  match p with
  | Pending => new
  | _ => p
  end.

Definition Exec (A : Type) : Type := Run -> Run * Completion A.

Definition ret {A} (a : A) : Exec A := fun r => (r, Normal a).

Definition bind {A B} (c : Exec A) (k : A -> Exec B) : Exec B :=
  fun r =>
    match c r with
    | (r', Normal a) => k a r'
    | (r', Throw e) => (r', Throw e)
    end.

Declare Scope exec_scope.
Delimit Scope exec_scope with exec.
Notation "x <- c ;; k" := (bind c (fun x => k))
  (at level 100, c at next level, right associativity) : exec_scope.
Notation "c ;; k" := (bind c (fun _ => k))
  (at level 100, right associativity) : exec_scope.
Open Scope exec_scope.

Definition lift {A} (c : Completion A) : Exec A := fun r => (r, c).

Definition throw {A} (e : Thrown) : Exec A := lift (Throw e).

(** [try { c } catch (e) { h e }] *)
Definition try_catch {A} (c : Exec A) (h : Thrown -> Exec A) : Exec A :=
  fun r =>
    match c r with
    | (r', Throw e) => h e r'
    | done => done
    end.

(** [if (b) { c }] *)
Definition when (b : bool) (c : Exec unit) : Exec unit :=
  if b then c else ret tt.

Definition reject (reason : JsValue) : Exec unit :=
  fun r =>
    ({| promise := settle (promise r) (Rejected reason);
        rejections := rejections r ++ [reason];
        requests := requests r;
        store := store r |}, Normal tt).

Definition resolve : Exec unit :=
  fun r =>
    ({| promise := settle (promise r) Fulfilled;
        rejections := rejections r;
        requests := requests r;
        store := store r |}, Normal tt).

Definition commit (m : Mutation) : Exec unit :=
  fun r =>
    ({| promise := promise r;
        rejections := rejections r;
        requests := requests r;
        store := mutations (store r) m |}, Normal tt).

(** [e.response], then a property of it: an error without a response
    (a [TypeError], or a request that got no answer) has [undefined]
    there, and reading a property of [undefined] throws. *)
Definition response_of (e : Thrown) : Completion Response :=
  match e with
  | AxiosError (Some r) => Normal r
  | _ => Throw TypeError
  end.

(** ** The actions (lines 117-223) *)

Section Actions.

(** The surroundings of the module: the printing of numbers and the JSON
    decoder of the JavaScript runtime ([None] is a thrown [SyntaxError]),
    the HTTP client, and the base address [process.env.apiUrl]. *)
Variable Number_toString : Z -> Z -> string.
Variable JSON_parse : string -> option JsValue.
Variable axios_post : Request -> PostOutcome.
Variable env_apiUrl : string.

(** ToString.  An element of an array that is [undefined] or [null] is
    joined as the empty text; an object answers with the inherited
    [toString] unless a property of its own hides it, and such a property
    of a decoded value is never a function. *)
Fixpoint ToString (v : JsValue) : Completion string :=
  match v with
  | JUndefined => Normal "undefined"
  | JNull => Normal "null"
  | JBool true => Normal "true"
  | JBool false => Normal "false"
  | JNumber m e => Normal (Number_toString m e)
  | JString s => Normal s
  | JArray items =>
      (fix join (l : list JsValue) : Completion string :=
         match l with
         | [] => Normal EmptyString
         | x :: rest =>
             let head :=
               match x with
               | JUndefined | JNull => Normal EmptyString
               | _ => ToString x
               end in
             match head, rest with
             | Throw e, _ => Throw e
             | Normal s, [] => Normal s
             | Normal s, _ :: _ =>
                 match join rest with
                 | Normal t => Normal (s ++ "," ++ t)
                 | Throw e => Throw e
                 end
             end
         end) items
  | JObject ps =>
      match own_prop "toString" ps with
      | Some _ => Throw TypeError
      | None => Normal "[object Object]"
      end
  end.

(** [v.toString()] *)
Definition toString (v : JsValue) : Completion string :=
  match v with
  | JUndefined | JNull => Throw TypeError
  | _ => ToString v
  end.

(** Line 5. *)
Definition apiUrl : string := env_apiUrl ++ "/manifests".

(** [await this.$axios.$post(url, options)] *)
Definition post (url : string) (options : JsValue) : Exec JsValue :=
  fun r =>
    let req := {| url := url; body := options |} in
    let r' := {| promise := promise r;
                 rejections := rejections r;
                 requests := requests r ++ [req];
                 store := store r |} in
    match axios_post req with
    | Responded result => (r', Normal result)
    | Failed response => (r', Throw (AxiosError response))
    end.

(** [JSON.parse(text)] *)
Definition parse (text : string) : Exec JsValue :=
  match JSON_parse text with
  | Some v => ret v
  | None => throw SyntaxError
  end.

(** Line 144. *)
Definition all_platforms : list JsValue :=
  [ JString platforms.web; JString platforms.windows10;
    JString platforms.windows; JString platforms.ios;
    JString platforms.android; JString platforms.androidTWA;
    JString platforms.samsung; JString platforms.msteams ].

(** [v === s] for a string [s] *)
Definition is_string (v : JsValue) (s : string) : bool :=
  match v with
  | JString s' => s' =? s
  | _ => false
  end.

(** Lines 131-159: the executor of [build]. *)
Definition build_executor (rootState : RootState)
    (params : option BuildParams) : Exec unit :=
  let manifestId := manifestId rootState in
  let serviceworker := serviceworker rootState in
  when (negb (present manifestId) || negb (present serviceworker))
    (reject (JString "error.manifest_required")) ;;
  when (match params with
        | None => true
        | Some p => falsy (platform p)
        end)
    (reject (JString "error.platform_required")) ;;
  p <- match params with
       | Some p => ret p
       | None => throw TypeError
       end ;;
  let platformsList :=
    if is_string (platform p) platforms.all
    then all_platforms
    else [ platform p ] in
  try_catch
    (let options :=
       JObject [ ("platforms", JArray platformsList);
                 ("dirSuffix", platform p);
                 ("parameters", of_options (options p)) ] in
     result <- post (apiUrl ++ "/" ++ render manifestId
                       ++ "/build?ids=" ++ render serviceworker
                       ++ "&href=" ++ href p
                       ++ LF ++ "                ") options ;;
     archive <- lift (get_prop result "archive") ;;
     commit (UPDATE_ARCHIVELINK archive) ;;
     resolve)
    (fun e =>
       response <- lift (response_of e) ;;
       errorMessage <-
         (if truthy (data response)
          then lift (get_prop (data response) "error")
          else ret (js_or (data response) (JString (statusText response)))) ;;
       reject errorMessage).

Definition build (st : State) (rootState : RootState)
    (params : option BuildParams) : Run :=
  fst (build_executor rootState params (start st)).

(** Lines 185-191: the two fault signatures and the message chosen. *)
Definition publisher_fault : string :=
  "@Publisher" ++ LF ++ "Package creation failed".

Definition version_fault : string :=
  "@Version" ++ LF ++ "Package creation failed.".

Definition errorMessage (error : string) : string :=
  if includes error publisher_fault then "Invalid Publisher Identity."
  else if includes error version_fault then "Invalid Version Number."
  else "Package building error.".

(** Line 183: the text the message is chosen from. *)
Definition error_text (response : Response) : Completion string :=
  if truthy (data response)
  then match get_prop (data response) "error" with
       | Normal err => toString err
       | Throw e => Throw e
       end
  else Normal "[object Object]".

(** Lines 165-193: the executor of [buildAppx]. *)
Definition buildAppx_executor (rootState : RootState)
    (params : AppxParams) : Exec unit :=
  let manifestId := manifestId rootState in
  when (negb (present manifestId))
    (reject (JString "error.manifest_required")) ;;
  when (negb (present (publisher params))
        || negb (present (publisher_id params))
        || negb (present (package params))
        || negb (present (version params)))
    (reject (JString "error.fields_required")) ;;
  try_catch
    (let options :=
       JObject [ ("name", of_opt (publisher params));
                 ("publisher", of_opt (publisher_id params));
                 ("package", of_opt (package params));
                 ("version", of_opt (version params)) ] in
     result <- post (apiUrl ++ "/" ++ render manifestId ++ "/appx")
                 options ;;
     archive <- lift (get_prop result "archive") ;;
     commit (UPDATE_APPXLINK archive) ;;
     resolve)
    (fun e =>
       response <- lift (response_of e) ;;
       error <- lift (error_text response) ;;
       reject (JString (errorMessage error))).

Definition buildAppx (st : State) (rootState : RootState)
    (params : AppxParams) : Run :=
  fst (buildAppx_executor rootState params (start st)).

(** Line 205: the argument of [JSON.parse].  An array is truthy even when
    empty, and its missing first element is [undefined], which
    [JSON.parse] reads as the text [undefined]. *)
Definition teams_text (opts : option (list string)) : string :=
  match opts with
  | Some (first :: _) => first
  | Some [] => "undefined"
  | None => "{}"
  end.

(** Lines 199-210: the executor of [buildTeams]. *)
Definition buildTeams_executor (rootState : RootState)
    (params : TeamsBuildParams) : Exec unit :=
  let manifestId := manifestId rootState in
  when (negb (present manifestId))
    (reject (JString "error.manifest_required")) ;;
  decoded <- parse (teams_text (teams_options params)) ;;
  publisherName <- lift (get_prop decoded "publisherName") ;;
  longDescription <- lift (get_prop decoded "longDescription") ;;
  shortDescription <- lift (get_prop decoded "shortDescription") ;;
  privacyUrl <- lift (get_prop decoded "privacyUrl") ;;
  termsOfUseUrl <- lift (get_prop decoded "termsOfUseUrl") ;;
  colorImageFile <- lift (get_prop decoded "colorImageFile") ;;
  when (falsy publisherName || falsy longDescription
        || falsy shortDescription || falsy privacyUrl
        || falsy termsOfUseUrl || falsy colorImageFile)
    (reject (JString "error.fields_required")) ;;
  resolve.

(** What [buildTeams] leaves behind: the run of its own executor, the
    payload dispatched to [build] when the [then] callback ran, and the
    run the returned promise follows (the delegated [build] when there is
    one, the executor's own otherwise). *)
Record TeamsRun : Type := mkTeamsRun {
  checked : Run;
  dispatched : option BuildParams;
  followed : Run
}.

(** Lines 197-214. *)
Definition buildTeams (st : State) (rootState : RootState)
    (params : TeamsBuildParams) : TeamsRun :=
  let gate := fst (buildTeams_executor rootState params (start st)) in
  match promise gate with
  | Fulfilled =>
      let payload := {| platform := JString platforms.msteams;
                        href := teams_href params;
                        options := teams_options params |} in
      {| checked := gate;
         dispatched := Some payload;
         followed := build (store gate) rootState (Some payload) |}
  | _ => {| checked := gate; dispatched := None; followed := gate |}
  end.

(** Lines 216-222. *)
Definition disableDownloadButton (st : State) : State :=
  mutations st (UPDATE_DOWNLOAD_DISABLED true).

Definition enableDownloadButton (st : State) : State :=
  mutations st (UPDATE_DOWNLOAD_DISABLED false).

End Actions.

(** ** A JSON decoder

    An executable instance of the decoder, after the JSON grammar: the
    four whitespace characters, the three literals, numbers, strings with
    their escapes, arrays and objects.  It is what the examples and the
    concrete runs below decode with. *)

Module Json.

Local Open Scope nat_scope.

Definition code (c : ascii) : nat := nat_of_ascii c.

Definition is_ws (c : ascii) : bool :=
  let n := code c in
  (n =? 32) || (n =? 9) || (n =? 10) || (n =? 13).

Definition is_digit (c : ascii) : bool :=
  let n := code c in (48 <=? n) && (n <=? 57).

Definition digit (c : ascii) : Z := Z.of_nat (code c - 48).

Definition hex_digit (c : ascii) : option nat :=
  let n := code c in
  if (48 <=? n) && (n <=? 57) then Some (n - 48)
  else if (65 <=? n) && (n <=? 70) then Some (n - 55)
  else if (97 <=? n) && (n <=? 102) then Some (n - 87)
  else None.

Fixpoint skip_ws (s : string) : string :=
  match s with
  | String c rest => if is_ws c then skip_ws rest else s
  | EmptyString => s
  end.

(** The bytes (UTF-8) of one escaped code unit. *)
Definition utf8 (n : nat) : string :=
  if n <? 128 then String (ascii_of_nat n) EmptyString
  else if n <? 2048 then
    String (ascii_of_nat (192 + n / 64))
      (String (ascii_of_nat (128 + n mod 64)) EmptyString)
  else
    String (ascii_of_nat (224 + n / 4096))
      (String (ascii_of_nat (128 + (n / 64) mod 64))
         (String (ascii_of_nat (128 + n mod 64)) EmptyString)).

(** The characters of a string after its opening quote, up to and
    including the closing one. *)
Fixpoint chars (s : string) : option (string * string) :=
  match s with
  | EmptyString => None
  | String c rest =>
      if code c =? 34 then Some (EmptyString, rest)
      else if code c <? 32 then None
      else if code c =? 92 then
        match rest with
        | String e rest' =>
            let plain (x : nat) :=
              match chars rest' with
              | Some (t, out) => Some (String (ascii_of_nat x) t, out)
              | None => None
              end in
            match code e with
            | 34 => plain 34
            | 92 => plain 92
            | 47 => plain 47
            | 98 => plain 8
            | 102 => plain 12
            | 110 => plain 10
            | 114 => plain 13
            | 116 => plain 9
            | 117 =>
                match rest' with
                | String h1 (String h2 (String h3 (String h4 rest''))) =>
                    match hex_digit h1, hex_digit h2,
                          hex_digit h3, hex_digit h4 with
                    | Some a, Some b, Some c', Some d =>
                        match chars rest'' with
                        | Some (t, out) =>
                            Some (utf8 (((a * 16 + b) * 16 + c') * 16 + d)
                                    ++ t, out)
                        | None => None
                        end
                    | _, _, _, _ => None
                    end
                | _ => None
                end
            | _ => None
            end
        | EmptyString => None
        end
      else
        match chars rest with
        | Some (t, out) => Some (String c t, out)
        | None => None
        end
  end.

(** A run of digits: its value on top of [acc], how many there were, and
    what follows. *)
Fixpoint digits (s : string) (acc : Z) (n : nat) : Z * nat * string :=
  match s with
  | String c rest =>
      if is_digit c then digits rest (acc * 10 + digit c)%Z (S n)
      else (acc, n, s)
  | EmptyString => (acc, n, s)
  end.

(** An optional minus; a zero, or digits not starting with zero; an
    optional point with digits; an optional exponent with its sign. *)
Definition number (s : string) : option (JsValue * string) :=
  let (neg, s1) :=
    match s with
    | String c rest => if code c =? 45 then (true, rest) else (false, s)
    | EmptyString => (false, s)
    end in
  let int_part :=
    match s1 with
    | String c rest =>
        if code c =? 48 then Some (0%Z, rest)
        else if is_digit c then
          let '(v, _, out) := digits s1 0%Z 0 in Some (v, out)
        else None
    | EmptyString => None
    end in
  match int_part with
  | None => None
  | Some (i, s2) =>
      let frac_part :=
        match s2 with
        | String c rest =>
            if code c =? 46 then
              let '(v, n, out) := digits rest i 0 in
              if n =? 0 then None else Some (v, Z.of_nat n, out)
            else Some (i, 0%Z, s2)
        | EmptyString => Some (i, 0%Z, s2)
        end in
      match frac_part with
      | None => None
      | Some (m, scale, s3) =>
          let exp_part :=
            match s3 with
            | String c rest =>
                if (code c =? 101) || (code c =? 69) then
                  let (eneg, s4) :=
                    match rest with
                    | String sg rest' =>
                        if code sg =? 45 then (true, rest')
                        else if code sg =? 43 then (false, rest')
                        else (false, rest)
                    | EmptyString => (false, rest)
                    end in
                  let '(v, n, out) := digits s4 0%Z 0 in
                  if n =? 0 then None
                  else Some ((if eneg then - v else v)%Z, out)
                else Some (0%Z, s3)
            | EmptyString => Some (0%Z, s3)
            end in
          match exp_part with
          | None => None
          | Some (e, s5) =>
              Some (JNumber (if neg then - m else m)%Z (e - scale)%Z, s5)
          end
      end
  end.

(** A later member of the same name replaces the earlier value. *)
Fixpoint set_prop (k : string) (v : JsValue)
    (ps : list (string * JsValue)) : list (string * JsValue) :=
  match ps with
  | [] => [ (k, v) ]
  | (k', v') :: rest =>
      if (k =? k')%string then (k', v) :: rest
      else (k', v') :: set_prop k v rest
  end.

Fixpoint drop (n : nat) (s : string) : string :=
  match n, s with
  | S n', String _ rest => drop n' rest
  | _, _ => s
  end.

Definition expect (c : nat) (s : string) : option string :=
  match s with
  | String c' rest => if code c' =? c then Some rest else None
  | EmptyString => None
  end.

Fixpoint value (fuel : nat) (s : string) : option (JsValue * string) :=
  match fuel with
  | O => None
  | S fuel' =>
      match skip_ws s with
      | String c rest =>
          let n := code c in
          if n =? 34 then
            match chars rest with
            | Some (t, out) => Some (JString t, out)
            | None => None
            end
          else if n =? 91 then
            match expect 93 (skip_ws rest) with
            | Some out => Some (JArray [], out)
            | None => elements fuel' rest []
            end
          else if n =? 123 then
            match expect 125 (skip_ws rest) with
            | Some out => Some (JObject [], out)
            | None => members fuel' rest []
            end
          else if prefix "null" (String c rest) then
            Some (JNull, drop 3 rest)
          else if prefix "true" (String c rest) then
            Some (JBool true, drop 3 rest)
          else if prefix "false" (String c rest) then
            Some (JBool false, drop 4 rest)
          else number (String c rest)
      | EmptyString => None
      end
  end
with elements (fuel : nat) (s : string) (acc : list JsValue)
    : option (JsValue * string) :=
  match fuel with
  | O => None
  | S fuel' =>
      match value fuel' s with
      | Some (v, out) =>
          match skip_ws out with
          | String c rest =>
              if code c =? 44 then elements fuel' rest (acc ++ [v])
              else if code c =? 93 then Some (JArray (acc ++ [v]), rest)
              else None
          | EmptyString => None
          end
      | None => None
      end
  end
with members (fuel : nat) (s : string) (acc : list (string * JsValue))
    : option (JsValue * string) :=
  match fuel with
  | O => None
  | S fuel' =>
      match expect 34 (skip_ws s) with
      | Some s1 =>
          match chars s1 with
          | Some (k, s2) =>
              match expect 58 (skip_ws s2) with
              | Some s3 =>
                  match value fuel' s3 with
                  | Some (v, out) =>
                      match skip_ws out with
                      | String c rest =>
                          if code c =? 44
                          then members fuel' rest (set_prop k v acc)
                          else if code c =? 125
                          then Some (JObject (set_prop k v acc), rest)
                          else None
                      | EmptyString => None
                      end
                  | None => None
                  end
              | None => None
              end
          | None => None
          end
      | None => None
      end
  end.

(** The whole text is one value between optional whitespace.  The fuel
    bounds the depth of the calls of [value], [elements] and [members];
    it is set to twice the length of the text, since two calls in a row
    read at least one character. *)
Definition parse (text : string) : option JsValue :=
  match value (2 * String.length text + 2) text with
  | Some (v, out) =>
      match skip_ws out with
      | EmptyString => Some v
      | _ => None
      end
  | None => None
  end.

End Json.

(** ** Concrete surroundings

    Instances of the surroundings and sample inputs, for the concrete runs
    that accompany the theorems. *)

Module Sample.

(** Exact on the integers a double holds exactly, written without
    fraction or exponent; no run below prints any other number. *)
Definition number_text (m e : Z) : string :=
  NilZero.string_of_int (Z.to_int (m * 10 ^ e)).

Definition env : string := "https://api.example".

(** A service that answers every request the same way. *)
Definition answers (result : JsValue) : Request -> PostOutcome :=
  fun _ => Responded result.

Definition fails (response : option Response) : Request -> PostOutcome :=
  fun _ => Failed response.

Definition archive_body (link : string) : JsValue :=
  JObject [ ("archive", JString link) ].

Definition ready : RootState :=
  {| manifestId := Some "m-1"; serviceworker := Some "3" |}.

Definition no_manifest : RootState :=
  {| manifestId := None; serviceworker := Some "3" |}.

Definition no_worker : RootState :=
  {| manifestId := Some "m-1"; serviceworker := None |}.

Definition site : string := "https://app.example".

Definition web_build : BuildParams :=
  {| platform := JString platforms.web; href := site; options := None |}.

Definition appx : AppxParams :=
  {| publisher := Some "Contoso";
     publisher_id := Some "CN=3a54a224-05dd-42aa-85bd-3f3c1478fdca";
     package := Some "Contoso.App";
     version := Some "1.0.0" |}.

Definition appx_no_publisher : AppxParams :=
  {| publisher := None;
     publisher_id := Some "CN=3a54a224-05dd-42aa-85bd-3f3c1478fdca";
     package := Some "Contoso.App";
     version := Some "1.0.0" |}.

(** An answer with a body that is plain text, not the documented object. *)
Definition timed_out : Response :=
  {| data := JString "upstream timed out"; statusText := "Gateway Timeout" |}.

(** An answer of the package service that names the publisher fault. *)
Definition bad_publisher : Response :=
  {| data := JObject
       [ ("error",
          JString ("Error: @Publisher" ++ LF
                   ++ "Package creation failed.")) ];
     statusText := "Internal Server Error" |}.

Definition DQ : string := String "034"%char EmptyString.

Definition quoted (s : string) : string := DQ ++ s ++ DQ.

Definition member (k v : string) : string := quoted k ++ ":" ++ quoted v.

(** A Teams payload with every required field. *)
Definition teams_json : string :=
  "{" ++ member "publisherName" "Contoso"
  ++ "," ++ member "shortDescription" "A tool"
  ++ "," ++ member "longDescription" "A tool for teams"
  ++ "," ++ member "privacyUrl" "https://app.example/privacy"
  ++ "," ++ member "termsOfUseUrl" "https://app.example/terms"
  ++ "," ++ member "colorImageFile" "color.png"
  ++ "}".

(** The same payload without [termsOfUseUrl]. *)
Definition teams_json_no_terms : string :=
  "{" ++ member "publisherName" "Contoso"
  ++ "," ++ member "shortDescription" "A tool"
  ++ "," ++ member "longDescription" "A tool for teams"
  ++ "," ++ member "privacyUrl" "https://app.example/privacy"
  ++ "," ++ member "colorImageFile" "color.png"
  ++ "}".

(** What the two payloads decode to. *)
Definition teams_decoded : JsValue :=
  JObject [ ("publisherName", JString "Contoso");
            ("shortDescription", JString "A tool");
            ("longDescription", JString "A tool for teams");
            ("privacyUrl", JString "https://app.example/privacy");
            ("termsOfUseUrl", JString "https://app.example/terms");
            ("colorImageFile", JString "color.png") ].

Definition teams_decoded_no_terms : JsValue :=
  JObject [ ("publisherName", JString "Contoso");
            ("shortDescription", JString "A tool");
            ("longDescription", JString "A tool for teams");
            ("privacyUrl", JString "https://app.example/privacy");
            ("colorImageFile", JString "color.png") ].

Definition teams (text : string) : TeamsBuildParams :=
  {| teams_href := site; teams_options := Some [ text ] |}.

End Sample.

(** * Properties *)

Lemma append_assoc (a b c : string) : (a ++ b) ++ c = a ++ (b ++ c).
Proof.
  induction a as [| x a IH]; simpl; [reflexivity | rewrite IH; reflexivity].
Qed.

(** ** The decoder at work *)

Example parse_empty_object : Json.parse "{}" = Some (JObject []).
Proof. reflexivity. Qed.

Example parse_teams_json :
  Json.parse Sample.teams_json = Some Sample.teams_decoded.
Proof. vm_compute. reflexivity. Qed.

Example parse_teams_json_no_terms :
  Json.parse Sample.teams_json_no_terms = Some Sample.teams_decoded_no_terms.
Proof. vm_compute. reflexivity. Qed.

Example parse_nested :
  Json.parse " [1, -2.50e3, [true, null], {}] "
  = Some (JArray [ JNumber 1 0; JNumber (-250) 1;
                   JArray [ JBool true; JNull ]; JObject [] ]).
Proof. vm_compute. reflexivity. Qed.

Example parse_refuses :
  map Json.parse [ "{not json"; "undefined"; EmptyString; "[1,]"; "01"; "nul" ]
  = [ None; None; None; None; None; None ].
Proof. vm_compute. reflexivity. Qed.

(** A number too small for a double is zero, and so falsy. *)
Example underflow_is_falsy :
  option_map truthy (Json.parse "1e-400") = Some false
  /\ option_map truthy (Json.parse "5e-324") = Some true.
Proof. split; vm_compute; reflexivity. Qed.

(** Unfolding of the executor combinators, then a case split on whatever
    the run still branches on: the guards, the answer of the service, the
    shape of the values read. *)
Ltac step_exec :=
  unfold build, buildAppx, build_executor, buildAppx_executor,
    bind, when, try_catch, lift, throw, ret, reject, resolve, commit, post,
    start; simpl.

Ltac step_teams :=
  unfold buildTeams, buildTeams_executor, parse.

Ltac split_on x :=
  lazymatch x with
  | context [match ?y with _ => _ end] => split_on y
  | _ => destruct x eqn:?
  end.

Ltac split_run :=
  repeat (simpl;
    match goal with
    | |- context [match ?x with _ => _ end] => split_on x
    end).

Section Properties.

Variable Number_toString : Z -> Z -> string.
Variable JSON_parse : string -> option JsValue.
Variable axios_post : Request -> PostOutcome.
Variable env_apiUrl : string.

#[local] Abbreviation build := (build axios_post env_apiUrl).
#[local] Abbreviation buildAppx :=
  (buildAppx Number_toString axios_post env_apiUrl).
#[local] Abbreviation buildTeams :=
  (buildTeams JSON_parse axios_post env_apiUrl).

(** *** The request of [build] *)

(** Whenever [params] is there, [build] hands exactly one request to the
    HTTP client, whatever the two precondition checks found. *)
Lemma build_request (st : State) (rootState : RootState) (p : BuildParams) :
  requests (build st rootState (Some p)) =
  [ {| url := apiUrl env_apiUrl ++ "/" ++ render (manifestId rootState)
              ++ "/build?ids=" ++ render (serviceworker rootState)
              ++ "&href=" ++ href p ++ LF ++ "                ";
       body := JObject
         [ ("platforms",
            JArray (if is_string (platform p) platforms.all
                    then all_platforms else [ platform p ]));
           ("dirSuffix", platform p);
           ("parameters", of_options (options p)) ] |} ].
Proof.
  step_exec. split_run; reflexivity.
Qed.

(** Without [params] the executor stops at line 143, before the request. *)
Lemma build_without_params (st : State) (rootState : RootState) :
  requests (build st rootState None) = []
  /\ store (build st rootState None) = st.
Proof.
  step_exec. split_run; split; reflexivity.
Qed.

Lemma is_string_false (v : JsValue) (s : string) :
  v <> JString s -> is_string v s = false.
Proof.
  destruct v as [| | | | s' | |]; simpl; trivial.
  intros H. destruct (String.eqb_spec s' s); congruence.
Qed.

(** C3.  Invoked with the sentinel [platforms.all], [build] sends one
    request whose platform list is web, windows10, windows, ios, android,
    androidTWA, samsung, msteams, in that order, and the sentinel is not in
    it. *)
Theorem build_all_sends_every_platform (st : State) (rootState : RootState)
    (hr : string) (opts : option (list string)) :
  let sent :=
    map JString [ platforms.web; platforms.windows10; platforms.windows;
                  platforms.ios; platforms.android; platforms.androidTWA;
                  platforms.samsung; platforms.msteams ] in
  exists req,
    requests (build st rootState
                (Some {| platform := JString platforms.all;
                         href := hr; options := opts |})) = [req]
    /\ get_prop (body req) "platforms" = Normal (JArray sent)
    /\ ~ In (JString platforms.all) sent.
Proof.
  intros sent. eexists. split; [apply build_request |].
  split; [reflexivity |].
  unfold sent. simpl. intros H.
  repeat (destruct H as [H | H]; [discriminate H |]). exact H.
Qed.

(** C7.  The request of [build] always carries the platform argument as
    given in [dirSuffix], and for every platform other than the sentinel
    its platform list is that one platform. *)
Theorem build_sends_requested_platform (st : State) (rootState : RootState)
    (p : BuildParams) :
  exists req,
    requests (build st rootState (Some p)) = [req]
    /\ get_prop (body req) "dirSuffix" = Normal (platform p)
    /\ (platform p <> JString platforms.all ->
        get_prop (body req) "platforms" = Normal (JArray [ platform p ])).
Proof.
  eexists. split; [apply build_request |].
  split; [reflexivity |].
  intros H. simpl. rewrite (is_string_false _ _ H). reflexivity.
Qed.

(** C9.  When the service answers the request of [build] with an archive
    link, [archiveLink] becomes exactly that link and the three other
    fields of the publish state keep their values. *)
Theorem build_success_writes_archiveLink (st : State) (rootState : RootState)
    (p : BuildParams) (req : Request) (result : JsValue) (link : string) :
  requests (build st rootState (Some p)) = [req] ->
  axios_post req = Responded result ->
  get_prop result "archive" = Normal (JString link) ->
  let st' := store (build st rootState (Some p)) in
  archiveLink st' = JString link
  /\ appXLink st' = appXLink st
  /\ status st' = status st
  /\ downloadDisabled st' = downloadDisabled st.
Proof.
  intros Hreq Hpost Harch.
  rewrite build_request in Hreq. injection Hreq as <-.
  revert Hpost Harch. step_exec.
  split_run; intros; repeat split; simpl; congruence.
Qed.

(** *** The request of [buildAppx] *)

Lemma buildAppx_request (st : State) (rootState : RootState)
    (params : AppxParams) :
  requests (buildAppx st rootState params) =
  [ {| url := apiUrl env_apiUrl ++ "/" ++ render (manifestId rootState)
              ++ "/appx";
       body := JObject
         [ ("name", of_opt (publisher params));
           ("publisher", of_opt (publisher_id params));
           ("package", of_opt (package params));
           ("version", of_opt (version params)) ] |} ].
Proof.
  step_exec. unfold error_text. split_run; reflexivity.
Qed.

(** C4.  [buildAppx] sends one request; decoded, its field [name] holds
    the local [publisher], its field [publisher] the local [publisher_id],
    and [package] and [version] hold the local fields of the same name. *)
Theorem buildAppx_wire_fields (st : State) (rootState : RootState)
    (params : AppxParams) :
  exists req,
    requests (buildAppx st rootState params) = [req]
    /\ get_prop (body req) "name" = Normal (of_opt (publisher params))
    /\ get_prop (body req) "publisher" = Normal (of_opt (publisher_id params))
    /\ get_prop (body req) "package" = Normal (of_opt (package params))
    /\ get_prop (body req) "version" = Normal (of_opt (version params)).
Proof.
  eexists. split; [apply buildAppx_request |].
  repeat split; reflexivity.
Qed.

(** *** The classification of a failed [buildAppx] *)

Lemma prefix_app (needle hay : string) :
  prefix needle hay = true <-> exists after, hay = needle ++ after.
Proof.
  revert hay. induction needle as [| c needle IH]; intros hay.
  - split; intros _; [exists hay | destruct hay]; reflexivity.
  - destruct hay as [| c' hay]; simpl.
    + split; [discriminate | intros [after H]; discriminate H].
    + destruct (ascii_dec c c') as [-> | Hne].
      * rewrite IH. split; intros [after H]; exists after.
        -- f_equal. exact H.
        -- injection H as H. exact H.
      * split; [discriminate |].
        intros [after H]. injection H as H _. congruence.
Qed.

Lemma includes_occurs_in (hay needle : string) :
  includes hay needle = true <-> occurs_in needle hay.
Proof.
  unfold occurs_in. induction hay as [| c hay IH].
  - cbn [includes]. rewrite orb_false_r, prefix_app. split.
    + intros [after H]. exists EmptyString, after. exact H.
    + intros [[| c before] [after H]]; [exists after; exact H | discriminate H].
  - cbn [includes]. rewrite orb_true_iff, prefix_app, IH. split.
    + intros [[after H] | [before [after H]]].
      * exists EmptyString, after. exact H.
      * exists (String c before), after. simpl. f_equal. exact H.
    + intros [[| c' before] [after H]].
      * left. exists after. exact H.
      * right. exists before, after. injection H as _ H. exact H.
Qed.

Lemma includes_not_occurs_in (hay needle : string) :
  includes hay needle = false <-> ~ occurs_in needle hay.
Proof.
  rewrite <- includes_occurs_in. destruct (includes hay needle); split;
    congruence.
Qed.

(** The message follows the first signature found, the publisher's first. *)
Lemma errorMessage_first_match (text : string) :
  (occurs_in publisher_fault text ->
   errorMessage text = "Invalid Publisher Identity.")
  /\ (~ occurs_in publisher_fault text -> occurs_in version_fault text ->
      errorMessage text = "Invalid Version Number.")
  /\ (~ occurs_in publisher_fault text -> ~ occurs_in version_fault text ->
      errorMessage text = "Package building error.").
Proof.
  unfold errorMessage. repeat split.
  - intros H. apply includes_occurs_in in H. rewrite H. reflexivity.
  - intros H1 H2. apply includes_not_occurs_in in H1.
    apply includes_occurs_in in H2. rewrite H1, H2. reflexivity.
  - intros H1 H2. apply includes_not_occurs_in in H1, H2.
    rewrite H1, H2. reflexivity.
Qed.

(** What a failed request leaves behind: the guards' rejections, then the
    classified message; the publish state is not written. *)
Lemma buildAppx_failure_run (st : State) (rootState : RootState)
    (params : AppxParams) (req : Request) (response : Response)
    (text : string) :
  requests (buildAppx st rootState params) = [req] ->
  axios_post req = Failed (Some response) ->
  error_text Number_toString response = Normal text ->
  let run := buildAppx st rootState params in
  (exists earlier,
      rejections run = (earlier ++ [ JString (errorMessage text) ])%list)
  /\ (present (manifestId rootState) = true ->
      present (publisher params) = true ->
      present (publisher_id params) = true ->
      present (package params) = true ->
      present (version params) = true ->
      promise run = Rejected (JString (errorMessage text)))
  /\ store run = st.
Proof.
  intros Hreq Hpost Htext.
  rewrite buildAppx_request in Hreq. injection Hreq as <-.
  revert Hpost Htext. step_exec.
  split_run; intros; try congruence.
  all: match goal with
       | Ha : error_text _ _ = Normal ?a, Hb : error_text _ _ = Normal ?t
         |- _ => assert (a = t) by congruence; subst a
       end.
  all: split; [| split; [intros H1 H2 H3 H4 H5 | reflexivity]].
  all: try (simpl;
            first [ exists []; reflexivity
                  | eexists [ _ ]; reflexivity
                  | eexists [ _; _ ]; reflexivity ]).
  all: rewrite ?H1, ?H2, ?H3, ?H4, ?H5 in *; simpl in *; congruence.
Qed.

(** C5.  When the request of [buildAppx] fails with an answer whose error
    text is [text], the operation rejects with the message chosen by the
    first signature that occurs in [text]: the publisher-identity fault,
    else the version-number fault, else the generic message. *)
Theorem buildAppx_failure_classified (st : State) (rootState : RootState)
    (params : AppxParams) (req : Request) (response : Response)
    (text : string) :
  requests (buildAppx st rootState params) = [req] ->
  axios_post req = Failed (Some response) ->
  error_text Number_toString response = Normal text ->
  exists earlier message,
    rejections (buildAppx st rootState params)
      = (earlier ++ [ JString message ])%list
    /\ (occurs_in publisher_fault text ->
        message = "Invalid Publisher Identity.")
    /\ (~ occurs_in publisher_fault text -> occurs_in version_fault text ->
        message = "Invalid Version Number.")
    /\ (~ occurs_in publisher_fault text -> ~ occurs_in version_fault text ->
        message = "Package building error.").
Proof.
  intros Hreq Hpost Htext.
  destruct (buildAppx_failure_run st rootState params req response text
              Hreq Hpost Htext) as [[earlier Hrej] _].
  exists earlier, (errorMessage text). split; [exact Hrej |].
  apply errorMessage_first_match.
Qed.

(** *** Failures of [build] *)

(** The first guard settles the promise before anything else can. *)
Lemma build_manifest_required (st : State) (rootState : RootState)
    (params : option BuildParams) :
  present (manifestId rootState) && present (serviceworker rootState) = false ->
  promise (build st rootState params)
    = Rejected (JString "error.manifest_required")
  /\ In (JString "error.manifest_required")
        (rejections (build st rootState params)).
Proof.
  intros H. apply andb_false_iff in H.
  assert (G : negb (present (manifestId rootState))
              || negb (present (serviceworker rootState)) = true).
  { destruct H as [-> | ->]; [reflexivity | apply orb_true_r]. }
  clear H. revert G. step_exec.
  split_run; intros; try congruence; simpl in *;
    try congruence; split; simpl; auto.
Qed.

Lemma build_platform_required (st : State) (rootState : RootState)
    (params : option BuildParams) :
  present (manifestId rootState) = true ->
  present (serviceworker rootState) = true ->
  match params with
  | Some p => falsy (platform p) = true
  | None => True
  end ->
  promise (build st rootState params)
    = Rejected (JString "error.platform_required").
Proof.
  intros H1 H2. step_exec. rewrite H1, H2.
  destruct params as [p |]; [intros -> | intros _]; simpl;
    split_run; reflexivity.
Qed.

(** The second guard calls [reject] whatever the first one did. *)
Lemma build_signals_platform_required (st : State) (rootState : RootState)
    (p : BuildParams) :
  falsy (platform p) = true ->
  In (JString "error.platform_required")
     (rejections (build st rootState (Some p))).
Proof.
  intros H. revert H. step_exec.
  split_run; intros; try congruence; simpl; auto.
Qed.

(** A failure the service reports is never followed by a write. *)
Lemma build_failure_keeps_state (st : State) (rootState : RootState)
    (p : BuildParams) (req : Request) (response : option Response) :
  requests (build st rootState (Some p)) = [req] ->
  axios_post req = Failed response ->
  store (build st rootState (Some p)) = st.
Proof.
  intros Hreq Hpost.
  rewrite build_request in Hreq. injection Hreq as <-.
  revert Hpost. step_exec.
  split_run; intros; try congruence; reflexivity.
Qed.

Lemma get_prop_truthy (v : JsValue) (k : string) :
  truthy v = true -> exists x, get_prop v k = Normal x.
Proof.
  destruct v; simpl; try discriminate; intros _; try (eexists; reflexivity).
  destruct (own_prop k props); eexists; reflexivity.
Qed.

(** The message of a failed [build]: the [error] property of the answer's
    body when the body is truthy, the status text when it is not.  The
    body itself is never the message. *)
Lemma build_failure_message (st : State) (rootState : RootState)
    (p : BuildParams) (req : Request) (response : Response) :
  requests (build st rootState (Some p)) = [req] ->
  axios_post req = Failed (Some response) ->
  exists earlier message,
    rejections (build st rootState (Some p))
      = (earlier ++ [ message ])%list
    /\ (truthy (data response) = true ->
        get_prop (data response) "error" = Normal message)
    /\ (truthy (data response) = false ->
        message = JString (statusText response)).
Proof.
  intros Hreq Hpost.
  rewrite build_request in Hreq. injection Hreq as <-.
  revert Hpost. step_exec. unfold js_or.
  split_run; intros; try congruence.
  all: match goal with
       | H : Failed _ = Failed _ |- _ => injection H as H; subst
       end.
  all: try match goal with
           | Ht : truthy ?v = true, Hg : get_prop ?v ?k = Throw _ |- _ =>
               exfalso; destruct (get_prop_truthy v k Ht); congruence
           end.
  all: first [ exists []; eexists; split; [reflexivity |]
             | eexists [ _ ]; eexists; split; [reflexivity |]
             | eexists [ _; _ ]; eexists; split; [reflexivity |] ].
  all: split; intros; simpl in *; congruence.
Qed.

(** *** [buildTeams] *)

Lemma get_prop_defined (v : JsValue) (k : string) :
  v <> JNull -> v <> JUndefined -> exists x, get_prop v k = Normal x.
Proof.
  intros H1 H2. destruct v; simpl; try congruence; try (eexists; reflexivity).
  destruct (own_prop k props); eexists; reflexivity.
Qed.

Lemma has_field_true (v : JsValue) (k : string) :
  has_field v k = true ->
  exists x, get_prop v k = Normal x /\ falsy x = false.
Proof.
  unfold has_field, falsy. destruct (get_prop v k) as [x | e];
    [| discriminate].
  intros H. exists x. rewrite H. split; reflexivity.
Qed.

(** C6.  Let the options of [buildTeams] decode (absent options as the
    empty object) to a value other than [null].  If the value lacks one of
    the five required Teams fields or the color image, [reject] is called
    with [error.fields_required] and nothing is dispatched to [build]; if
    it has them all and a manifest identifier is present, [build] is
    dispatched with platform [msteams] and the same [href] and [options],
    and the returned promise follows that run. *)
Theorem buildTeams_validates_then_delegates (st : State)
    (rootState : RootState) (params : TeamsBuildParams) (decoded : JsValue) :
  JSON_parse (teams_text (teams_options params)) = Some decoded ->
  decoded <> JNull ->
  decoded <> JUndefined ->
  let run := buildTeams st rootState params in
  let payload := {| platform := JString platforms.msteams;
                    href := teams_href params;
                    options := teams_options params |} in
  ((exists k, In k teams_required /\ has_field decoded k = false) ->
   In (JString "error.fields_required") (rejections (checked run))
   /\ dispatched run = None
   /\ (present (manifestId rootState) = true ->
       promise (followed run) = Rejected (JString "error.fields_required")))
  /\ ((forall k, In k teams_required -> has_field decoded k = true) ->
      present (manifestId rootState) = true ->
      dispatched run = Some payload
      /\ followed run = build st rootState (Some payload)).
Proof.
  intros Hparse Hnull Hundef run payload. subst run.
  step_teams.
  rewrite Hparse. split.
  - intros (k & Hin & Hk).
    destruct (get_prop_defined decoded "publisherName" Hnull Hundef) as [v1 E1].
    destruct (get_prop_defined decoded "longDescription" Hnull Hundef) as [v2 E2].
    destruct (get_prop_defined decoded "shortDescription" Hnull Hundef) as [v3 E3].
    destruct (get_prop_defined decoded "privacyUrl" Hnull Hundef) as [v4 E4].
    destruct (get_prop_defined decoded "termsOfUseUrl" Hnull Hundef) as [v5 E5].
    destruct (get_prop_defined decoded "colorImageFile" Hnull Hundef) as [v6 E6].
    assert (G : falsy v1 || falsy v2 || falsy v3 || falsy v4
                || falsy v5 || falsy v6 = true).
    { unfold has_field, falsy in *. simpl in Hin.
      repeat (destruct Hin as [<- | Hin];
        [ first [ rewrite E1 in Hk | rewrite E2 in Hk | rewrite E3 in Hk
                | rewrite E4 in Hk | rewrite E5 in Hk | rewrite E6 in Hk ];
          rewrite Hk; simpl; rewrite ?orb_true_r; reflexivity |]).
      contradiction. }
    unfold bind, when, lift, ret, reject, resolve, start.
    destruct (present (manifestId rootState)); simpl;
      rewrite E1, E2, E3, E4, E5, E6, G; simpl;
      (split; [auto | split; [reflexivity | intros; congruence]]).
  - intros Hall Hm.
    destruct (has_field_true decoded "publisherName") as (v1 & E1 & F1);
      [apply Hall; simpl; auto |].
    destruct (has_field_true decoded "longDescription") as (v2 & E2 & F2);
      [apply Hall; simpl; auto |].
    destruct (has_field_true decoded "shortDescription") as (v3 & E3 & F3);
      [apply Hall; simpl; auto |].
    destruct (has_field_true decoded "privacyUrl") as (v4 & E4 & F4);
      [apply Hall; simpl; auto |].
    destruct (has_field_true decoded "termsOfUseUrl") as (v5 & E5 & F5);
      [apply Hall; simpl; auto 6 |].
    destruct (has_field_true decoded "colorImageFile") as (v6 & E6 & F6);
      [apply Hall; simpl; auto 7 |].
    unfold bind, when, lift, ret, reject, resolve, start.
    rewrite Hm. simpl.
    rewrite E1, E2, E3, E4, E5, E6, F1, F2, F3, F4, F5, F6. simpl.
    split; reflexivity.
Qed.

(** C10.  With a manifest identifier present and a first option that the
    decoder refuses, [buildTeams] settles nothing: the promise it returns
    stays pending, [reject] is never called, and nothing is dispatched to
    [build]. *)
Theorem buildTeams_invalid_json_escapes (st : State) (rootState : RootState)
    (hr text : string) (rest : list string) :
  present (manifestId rootState) = true ->
  JSON_parse text = None ->
  let run := buildTeams st rootState
               {| teams_href := hr; teams_options := Some (text :: rest) |} in
  promise (followed run) = Pending
  /\ rejections (followed run) = []
  /\ dispatched run = None
  /\ requests (followed run) = []
  /\ store (followed run) = st.
Proof.
  intros Hm Hparse run. subst run.
  step_teams. unfold bind, when, throw, lift, ret, start.
  simpl. rewrite Hm, Hparse. simpl. repeat split; reflexivity.
Qed.

(** *** The download button *)

Lemma download_button_toggles (st : State) :
  downloadDisabled (enableDownloadButton (disableDownloadButton st)) = false
  /\ disableDownloadButton (disableDownloadButton st)
     = disableDownloadButton st
  /\ enableDownloadButton (enableDownloadButton st)
     = enableDownloadButton st.
Proof.
  repeat split; reflexivity.
Qed.

End Properties.

(** * Concrete runs *)

(** C1.  With no manifest identifier, and likewise with no platform,
    [build] rejects with the matching identifier, and the request has gone
    out to the service all the same: [reject] does not leave the executor,
    which runs on to line 151. *)
Theorem build_precondition_failure_reaches_network
    (axios_post : Request -> PostOutcome) (env_apiUrl : string) (st : State) :
  (promise (build axios_post env_apiUrl st Sample.no_manifest
              (Some Sample.web_build))
     = Rejected (JString "error.manifest_required")
   /\ requests (build axios_post env_apiUrl st Sample.no_manifest
                  (Some Sample.web_build))
      = [ {| url := env_apiUrl
                    ++ "/manifests/null/build?ids=3&href=https://app.example"
                    ++ LF ++ "                ";
             body := JObject [ ("platforms", JArray [ JString "web" ]);
                               ("dirSuffix", JString "web");
                               ("parameters", JUndefined) ] |} ])
  /\ (promise (build axios_post env_apiUrl st Sample.ready
                 (Some {| platform := JUndefined; href := Sample.site;
                          options := None |}))
        = Rejected (JString "error.platform_required")
      /\ requests (build axios_post env_apiUrl st Sample.ready
                     (Some {| platform := JUndefined; href := Sample.site;
                              options := None |}))
         = [ {| url := env_apiUrl
                       ++ "/manifests/m-1/build?ids=3&href=https://app.example"
                       ++ LF ++ "                ";
                body := JObject [ ("platforms", JArray [ JUndefined ]);
                                  ("dirSuffix", JUndefined);
                                  ("parameters", JUndefined) ] |} ]).
Proof.
  split; split.
  - apply build_manifest_required. reflexivity.
  - rewrite build_request. unfold apiUrl. simpl.
    rewrite append_assoc. reflexivity.
  - apply build_platform_required; reflexivity.
  - rewrite build_request. unfold apiUrl. simpl.
    rewrite append_assoc. reflexivity.
Qed.

(** C2.  A [build] rejected for its missing service-worker identifier
    and a [buildAppx] rejected for a missing field still write the link the
    service answered with: the executor runs on past [reject], and
    [commit] follows the answer. *)
Theorem rejected_build_writes_link (env_apiUrl : string) :
  (promise (build (Sample.answers (Sample.archive_body "https://x/y.zip"))
              env_apiUrl state Sample.no_worker (Some Sample.web_build))
     = Rejected (JString "error.manifest_required")
   /\ archiveLink
        (store (build (Sample.answers (Sample.archive_body "https://x/y.zip"))
                  env_apiUrl state Sample.no_worker
                  (Some Sample.web_build)))
      = JString "https://x/y.zip"
   /\ archiveLink state = JNull)
  /\ (promise (buildAppx Sample.number_text
                 (Sample.answers (Sample.archive_body "https://x/y.appx"))
                 env_apiUrl state Sample.ready Sample.appx_no_publisher)
        = Rejected (JString "error.fields_required")
      /\ appXLink
           (store (buildAppx Sample.number_text
                     (Sample.answers (Sample.archive_body "https://x/y.appx"))
                     env_apiUrl state Sample.ready Sample.appx_no_publisher))
         = JString "https://x/y.appx"
      /\ appXLink state = JNull).
Proof.
  repeat split; reflexivity.
Qed.

(** C8.  The service answers a [build] with a failure whose body is plain
    text.  The body is truthy, so the message is its [error] property,
    which a text does not have: the operation rejects with [undefined],
    neither the raw text nor the status text. *)
Theorem build_drops_raw_error_text (env_apiUrl : string) (st : State) :
  promise (build (Sample.fails (Some Sample.timed_out)) env_apiUrl st
             Sample.ready (Some Sample.web_build))
    = Rejected JUndefined
  /\ rejections (build (Sample.fails (Some Sample.timed_out)) env_apiUrl st
                   Sample.ready (Some Sample.web_build))
     = [ JUndefined ]
  /\ data Sample.timed_out = JString "upstream timed out"
  /\ statusText Sample.timed_out = "Gateway Timeout".
Proof.
  repeat split; reflexivity.
Qed.

(** ** Instances of the conditional theorems *)

Lemma build_sends_requested_platform_witness :
  JString platforms.ios <> JString platforms.all
  /\ exists req,
       requests (build (Sample.answers (Sample.archive_body "https://x/y.zip"))
                   Sample.env state Sample.ready
                   (Some {| platform := JString platforms.ios;
                            href := Sample.site; options := None |})) = [req]
       /\ get_prop (body req) "platforms"
          = Normal (JArray [ JString platforms.ios ]).
Proof.
  split; [discriminate |].
  destruct (build_sends_requested_platform
              (Sample.answers (Sample.archive_body "https://x/y.zip"))
              Sample.env state Sample.ready
              {| platform := JString platforms.ios;
                 href := Sample.site; options := None |})
    as (req & Hreq & _ & Hlist).
  exists req. split; [exact Hreq |]. apply Hlist. discriminate.
Defined.

Lemma build_success_writes_archiveLink_witness :
  archiveLink
    (store (build (Sample.answers (Sample.archive_body "https://x/y.zip"))
              Sample.env state Sample.ready (Some Sample.web_build)))
    = JString "https://x/y.zip"
  /\ appXLink
       (store (build (Sample.answers (Sample.archive_body "https://x/y.zip"))
                 Sample.env state Sample.ready (Some Sample.web_build)))
     = appXLink state.
Proof.
  destruct (build_success_writes_archiveLink
              (Sample.answers (Sample.archive_body "https://x/y.zip"))
              Sample.env state Sample.ready Sample.web_build
              _ (Sample.archive_body "https://x/y.zip") "https://x/y.zip"
              eq_refl eq_refl eq_refl)
    as (Harchive & Happx & _).
  split; [exact Harchive | exact Happx].
Defined.

Lemma buildAppx_failure_classified_witness :
  occurs_in publisher_fault ("Error: @Publisher" ++ LF
                              ++ "Package creation failed.")
  /\ exists earlier,
       rejections (buildAppx Sample.number_text
                     (Sample.fails (Some Sample.bad_publisher))
                     Sample.env state Sample.ready Sample.appx)
         = (earlier ++ [ JString "Invalid Publisher Identity." ])%list.
Proof.
  assert (Hocc : occurs_in publisher_fault
                   ("Error: @Publisher" ++ LF ++ "Package creation failed.")).
  { exists "Error: ", ".". reflexivity. }
  split; [exact Hocc |].
  destruct (buildAppx_failure_classified Sample.number_text
              (Sample.fails (Some Sample.bad_publisher))
              Sample.env state Sample.ready Sample.appx
              _ Sample.bad_publisher
              ("Error: @Publisher" ++ LF ++ "Package creation failed.")
              eq_refl eq_refl eq_refl)
    as (earlier & message & Hrej & Hpub & _).
  exists earlier. rewrite Hrej, (Hpub Hocc). reflexivity.
Defined.

Lemma buildTeams_validates_then_delegates_witness :
  (In (JString "error.fields_required")
      (rejections
         (checked (buildTeams Json.parse
                     (Sample.answers (Sample.archive_body "https://x/y.zip"))
                     Sample.env state Sample.ready
                     (Sample.teams Sample.teams_json_no_terms))))
   /\ dispatched (buildTeams Json.parse
                    (Sample.answers (Sample.archive_body "https://x/y.zip"))
                    Sample.env state Sample.ready
                    (Sample.teams Sample.teams_json_no_terms)) = None)
  /\ dispatched (buildTeams Json.parse
                   (Sample.answers (Sample.archive_body "https://x/y.zip"))
                   Sample.env state Sample.ready
                   (Sample.teams Sample.teams_json))
     = Some {| platform := JString platforms.msteams;
               href := Sample.site;
               options := Some [ Sample.teams_json ] |}.
Proof.
  split.
  - destruct (buildTeams_validates_then_delegates Json.parse
                (Sample.answers (Sample.archive_body "https://x/y.zip"))
                Sample.env state Sample.ready
                (Sample.teams Sample.teams_json_no_terms)
                Sample.teams_decoded_no_terms) as [Hlack _].
    + vm_compute. reflexivity.
    + discriminate.
    + discriminate.
    + destruct Hlack as (Hrej & Hnone & _).
      * exists "termsOfUseUrl". split; [simpl; auto 6 | reflexivity].
      * split; [exact Hrej | exact Hnone].
  - destruct (buildTeams_validates_then_delegates Json.parse
                (Sample.answers (Sample.archive_body "https://x/y.zip"))
                Sample.env state Sample.ready
                (Sample.teams Sample.teams_json)
                Sample.teams_decoded) as [_ Hall].
    + vm_compute. reflexivity.
    + discriminate.
    + discriminate.
    + destruct Hall as [Hsent _].
      * intros k Hk. simpl in Hk.
        repeat (destruct Hk as [<- | Hk]; [reflexivity |]). contradiction.
      * reflexivity.
      * exact Hsent.
Defined.

Lemma buildTeams_invalid_json_escapes_witness :
  Json.parse "{not json" = None
  /\ promise
       (followed (buildTeams Json.parse
                    (Sample.answers (Sample.archive_body "https://x/y.zip"))
                    Sample.env state Sample.ready
                    (Sample.teams "{not json"))) = Pending
  /\ dispatched (buildTeams Json.parse
                   (Sample.answers (Sample.archive_body "https://x/y.zip"))
                   Sample.env state Sample.ready
                   (Sample.teams "{not json")) = None.
Proof.
  split; [reflexivity |].
  destruct (buildTeams_invalid_json_escapes Json.parse
              (Sample.answers (Sample.archive_body "https://x/y.zip"))
              Sample.env state Sample.ready Sample.site "{not json" []
              eq_refl eq_refl)
    as (Hpending & _ & Hnone & _).
  split; [exact Hpending | exact Hnone].
Defined.

(** Absent options decode as the empty object, which has none of the
    fields. *)
Example buildTeams_absent_options :
  promise
    (followed (buildTeams Json.parse
                 (Sample.answers (Sample.archive_body "https://x/y.zip"))
                 Sample.env state Sample.ready
                 {| teams_href := Sample.site; teams_options := None |}))
    = Rejected (JString "error.fields_required")
  /\ dispatched (buildTeams Json.parse
                   (Sample.answers (Sample.archive_body "https://x/y.zip"))
                   Sample.env state Sample.ready
                   {| teams_href := Sample.site; teams_options := None |})
     = None.
Proof. split; vm_compute; reflexivity. Qed.

(** C6, as first stated, does not hold.  A payload with every required
    field is not delegated when the manifest identifier is absent: the
    first guard has rejected the promise, so the [then] callback never
    runs.  And a payload that decodes to [null] has none of the fields,
    yet [reject] is never called: reading the first field throws. *)
Lemma buildTeams_guarded_by_manifest :
  (forallb (has_field Sample.teams_decoded) teams_required = true
   /\ Json.parse Sample.teams_json = Some Sample.teams_decoded
   /\ dispatched (buildTeams Json.parse
                    (Sample.answers (Sample.archive_body "https://x/y.zip"))
                    Sample.env state Sample.no_manifest
                    (Sample.teams Sample.teams_json)) = None
   /\ promise
        (followed (buildTeams Json.parse
                     (Sample.answers (Sample.archive_body "https://x/y.zip"))
                     Sample.env state Sample.no_manifest
                     (Sample.teams Sample.teams_json)))
      = Rejected (JString "error.manifest_required"))
  /\ (Json.parse "null" = Some JNull
      /\ forallb (has_field JNull) teams_required = false
      /\ rejections
           (checked (buildTeams Json.parse
                       (Sample.answers (Sample.archive_body "https://x/y.zip"))
                       Sample.env state Sample.ready
                       (Sample.teams "null"))) = []
      /\ promise
           (followed (buildTeams Json.parse
                        (Sample.answers (Sample.archive_body "https://x/y.zip"))
                        Sample.env state Sample.ready
                        (Sample.teams "null"))) = Pending).
Proof.
  repeat split; vm_compute; reflexivity.
Qed.

(** * Further properties of the actions *)

(** ** Runs of [build] *)

Section BuildRuns.

Variable axios_post : Request -> PostOutcome.
Variable env_apiUrl : string.

#[local] Abbreviation build := (build axios_post env_apiUrl).

(** X1.  When both guards of [build] fail, [reject] is called twice, with
    [error.manifest_required] and then [error.platform_required], and the
    caller sees the first: a later [reject] does not replace the reason the
    promise was rejected with. *)
Theorem build_first_rejection_wins (st : State) (rootState : RootState)
    (params : option BuildParams) :
  present (manifestId rootState) && present (serviceworker rootState) = false ->
  match params with
  | Some p => falsy (platform p) = true
  | None => True
  end ->
  promise (build st rootState params)
    = Rejected (JString "error.manifest_required")
  /\ exists later,
       rejections (build st rootState params)
       = JString "error.manifest_required"
         :: JString "error.platform_required" :: later.
Proof.
  intros H. apply andb_false_iff in H.
  assert (G : negb (present (manifestId rootState))
              || negb (present (serviceworker rootState)) = true).
  { destruct H as [-> | ->]; [reflexivity | apply orb_true_r]. }
  clear H. step_exec. rewrite G.
  destruct params as [p |]; [intros -> | intros _]; simpl.
  - split_run; split; try reflexivity; eexists; reflexivity.
  - split; [reflexivity | exists []; reflexivity].
Qed.

(** X2.  Called without [params], [build] is rejected (for the manifest
    when an identifier is missing, for the platform otherwise), sends no
    request and leaves the publish state as it was: line 143 throws before
    the request is built. *)
Theorem build_without_params_rejects (st : State) (rootState : RootState) :
  promise (build st rootState None)
    = Rejected (JString
        (if present (manifestId rootState)
            && present (serviceworker rootState)
         then "error.platform_required"
         else "error.manifest_required"))
  /\ requests (build st rootState None) = []
  /\ store (build st rootState None) = st.
Proof.
  step_exec.
  destruct (present (manifestId rootState));
    destruct (present (serviceworker rootState)); simpl;
    repeat split; reflexivity.
Qed.

(** The run of a [build] that passes both guards and is answered. *)
Lemma build_answered_run (st : State) (rootState : RootState)
    (p : BuildParams) (req : Request) (result link : JsValue) :
  present (manifestId rootState) = true ->
  present (serviceworker rootState) = true ->
  falsy (platform p) = false ->
  requests (build st rootState (Some p)) = [req] ->
  axios_post req = Responded result ->
  get_prop result "archive" = Normal link ->
  promise (build st rootState (Some p)) = Fulfilled
  /\ rejections (build st rootState (Some p)) = []
  /\ archiveLink (store (build st rootState (Some p))) = link.
Proof.
  intros Hm Hs Hp Hreq Hpost Harch.
  rewrite build_request in Hreq. injection Hreq as <-.
  revert Hpost Harch. step_exec. rewrite Hm, Hs, Hp. simpl.
  split_run; intros; try congruence; repeat split; simpl; congruence.
Qed.

(** X3.  With both identifiers and a platform, a request the service
    answers fulfils the promise without any call of [reject], and
    [archiveLink] becomes the [archive] property of the answer, whatever
    that is: [undefined] when the answer has no such property. *)
Theorem build_succeeds (st : State) (rootState : RootState)
    (p : BuildParams) (req : Request) (result link : JsValue) :
  present (manifestId rootState) = true ->
  present (serviceworker rootState) = true ->
  falsy (platform p) = false ->
  requests (build st rootState (Some p)) = [req] ->
  axios_post req = Responded result ->
  get_prop result "archive" = Normal link ->
  promise (build st rootState (Some p)) = Fulfilled
  /\ rejections (build st rootState (Some p)) = []
  /\ archiveLink (store (build st rootState (Some p))) = link.
Proof.
  apply build_answered_run.
Qed.

(** X4.  With both identifiers and a platform, a request that fails
    without a response (a transport error) settles nothing: reading
    [e.response.data] throws inside the [catch] block, so the promise stays
    pending, [reject] is never called and the state is not written. *)
Theorem build_transport_failure_never_settles (st : State)
    (rootState : RootState) (p : BuildParams) (req : Request) :
  present (manifestId rootState) = true ->
  present (serviceworker rootState) = true ->
  falsy (platform p) = false ->
  requests (build st rootState (Some p)) = [req] ->
  axios_post req = Failed None ->
  promise (build st rootState (Some p)) = Pending
  /\ rejections (build st rootState (Some p)) = []
  /\ store (build st rootState (Some p)) = st.
Proof.
  intros Hm Hs Hp Hreq Hpost.
  rewrite build_request in Hreq. injection Hreq as <-.
  revert Hpost. step_exec. rewrite Hm, Hs, Hp. simpl.
  split_run; intros; try congruence; repeat split; reflexivity.
Qed.

(** X5.  With both identifiers and a platform, an answer whose body is
    [null] or [undefined] settles nothing either: [result.archive] throws,
    the [catch] block throws in turn, and the promise stays pending with
    the state unwritten. *)
Theorem build_empty_answer_never_settles (st : State)
    (rootState : RootState) (p : BuildParams) (req : Request)
    (result : JsValue) :
  present (manifestId rootState) = true ->
  present (serviceworker rootState) = true ->
  falsy (platform p) = false ->
  requests (build st rootState (Some p)) = [req] ->
  axios_post req = Responded result ->
  result = JNull \/ result = JUndefined ->
  promise (build st rootState (Some p)) = Pending
  /\ rejections (build st rootState (Some p)) = []
  /\ store (build st rootState (Some p)) = st.
Proof.
  intros Hm Hs Hp Hreq Hpost Hres.
  rewrite build_request in Hreq. injection Hreq as <-.
  revert Hpost. step_exec. rewrite Hm, Hs, Hp. simpl.
  destruct (axios_post _) as [res | resp]; intros Hpost;
    try discriminate Hpost.
  injection Hpost as ->.
  destruct Hres as [-> | ->]; simpl; repeat split; reflexivity.
Qed.

(** X6.  A request of [build] that the service fails never writes the
    publish state, whatever the guards found and whatever the failure
    carries. *)
Theorem build_failed_request_never_writes (st : State)
    (rootState : RootState) (p : BuildParams) (req : Request)
    (response : option Response) :
  requests (build st rootState (Some p)) = [req] ->
  axios_post req = Failed response ->
  store (build st rootState (Some p)) = st.
Proof.
  apply build_failure_keeps_state.
Qed.

(** X7.  No run of [build] touches [appXLink], [status] or
    [downloadDisabled]: the only field it can write is [archiveLink]. *)
Theorem build_frame (st : State) (rootState : RootState)
    (params : option BuildParams) :
  appXLink (store (build st rootState params)) = appXLink st
  /\ status (store (build st rootState params)) = status st
  /\ downloadDisabled (store (build st rootState params))
     = downloadDisabled st.
Proof.
  step_exec. split_run; repeat split; reflexivity.
Qed.

(** X8.  The address [build] posts to ends with the [href] exactly as it
    was given, followed by a line feed and sixteen spaces: the template
    literal of line 151 closes on the next line. *)
Theorem build_url_tail (st : State) (rootState : RootState)
    (p : BuildParams) :
  exists req front,
    requests (build st rootState (Some p)) = [req]
    /\ url req = front ++ "&href=" ++ href p ++ LF ++ "                ".
Proof.
  eexists. eexists. split; [apply build_request |].
  cbn [url]. rewrite <- !append_assoc. reflexivity.
Qed.

(** X9.  With both identifiers and a platform, a failure whose body is
    truthy rejects with the [error] property of the body, and with nothing
    else. *)
Theorem build_rejects_with_error_property (st : State)
    (rootState : RootState) (p : BuildParams) (req : Request)
    (response : Response) (message : JsValue) :
  present (manifestId rootState) = true ->
  present (serviceworker rootState) = true ->
  falsy (platform p) = false ->
  requests (build st rootState (Some p)) = [req] ->
  axios_post req = Failed (Some response) ->
  truthy (data response) = true ->
  get_prop (data response) "error" = Normal message ->
  promise (build st rootState (Some p)) = Rejected message
  /\ rejections (build st rootState (Some p)) = [ message ].
Proof.
  intros Hm Hs Hp Hreq Hpost Hdata Herr.
  rewrite build_request in Hreq. injection Hreq as <-.
  revert Hpost. step_exec. rewrite Hm, Hs, Hp. simpl.
  destruct (axios_post _) as [res | [resp |]]; intros Hpost;
    try discriminate Hpost.
  injection Hpost as ->. simpl. rewrite Hdata, Herr. simpl.
  split; reflexivity.
Qed.

(** X10.  With both identifiers and a platform, a failure whose body is
    falsy (absent, [null], the empty text) rejects with the status text of
    the response. *)
Theorem build_rejects_with_status_text (st : State)
    (rootState : RootState) (p : BuildParams) (req : Request)
    (response : Response) :
  present (manifestId rootState) = true ->
  present (serviceworker rootState) = true ->
  falsy (platform p) = false ->
  requests (build st rootState (Some p)) = [req] ->
  axios_post req = Failed (Some response) ->
  truthy (data response) = false ->
  promise (build st rootState (Some p))
    = Rejected (JString (statusText response))
  /\ rejections (build st rootState (Some p))
     = [ JString (statusText response) ].
Proof.
  intros Hm Hs Hp Hreq Hpost Hdata.
  rewrite build_request in Hreq. injection Hreq as <-.
  revert Hpost. step_exec. rewrite Hm, Hs, Hp. simpl.
  destruct (axios_post _) as [res | [resp |]]; intros Hpost;
    try discriminate Hpost.
  injection Hpost as ->. simpl. unfold js_or. rewrite Hdata. simpl.
  split; reflexivity.
Qed.

End BuildRuns.

Lemma build_first_rejection_wins_witness :
  promise (build (Sample.answers (Sample.archive_body "https://x/y.zip"))
             Sample.env state Sample.no_worker
             (Some {| platform := JString EmptyString; href := Sample.site;
                      options := None |}))
    = Rejected (JString "error.manifest_required").
Proof.
  apply (build_first_rejection_wins
           (Sample.answers (Sample.archive_body "https://x/y.zip"))
           Sample.env state Sample.no_worker
           (Some {| platform := JString EmptyString; href := Sample.site;
                    options := None |}) eq_refl eq_refl).
Defined.

Lemma build_succeeds_witness :
  promise (build (Sample.answers (JObject [])) Sample.env state Sample.ready
             (Some Sample.web_build)) = Fulfilled
  /\ archiveLink
       (store (build (Sample.answers (JObject [])) Sample.env state
                 Sample.ready (Some Sample.web_build))) = JUndefined.
Proof.
  destruct (build_succeeds (Sample.answers (JObject [])) Sample.env state
              Sample.ready Sample.web_build _ (JObject []) JUndefined
              eq_refl eq_refl eq_refl eq_refl eq_refl eq_refl)
    as (Hp & _ & Hlink).
  split; [exact Hp | exact Hlink].
Defined.

Lemma build_transport_failure_never_settles_witness :
  promise (build (Sample.fails None) Sample.env state Sample.ready
             (Some Sample.web_build)) = Pending.
Proof.
  apply (build_transport_failure_never_settles (Sample.fails None)
           Sample.env state Sample.ready Sample.web_build _
           eq_refl eq_refl eq_refl eq_refl eq_refl).
Defined.

Lemma build_empty_answer_never_settles_witness :
  promise (build (Sample.answers JNull) Sample.env state Sample.ready
             (Some Sample.web_build)) = Pending.
Proof.
  apply (build_empty_answer_never_settles (Sample.answers JNull)
           Sample.env state Sample.ready Sample.web_build _ JNull
           eq_refl eq_refl eq_refl eq_refl eq_refl (or_introl eq_refl)).
Defined.

Lemma build_failed_request_never_writes_witness :
  store (build (Sample.fails (Some Sample.timed_out)) Sample.env state
           Sample.no_manifest (Some Sample.web_build)) = state.
Proof.
  apply (build_failed_request_never_writes
           (Sample.fails (Some Sample.timed_out)) Sample.env state
           Sample.no_manifest Sample.web_build _ (Some Sample.timed_out)
           eq_refl eq_refl).
Defined.

Lemma build_rejects_with_error_property_witness :
  promise (build (Sample.fails (Some Sample.bad_publisher)) Sample.env state
             Sample.ready (Some Sample.web_build))
    = Rejected (JString ("Error: @Publisher" ++ LF
                         ++ "Package creation failed.")).
Proof.
  apply (build_rejects_with_error_property
           (Sample.fails (Some Sample.bad_publisher)) Sample.env state
           Sample.ready Sample.web_build _ Sample.bad_publisher _
           eq_refl eq_refl eq_refl eq_refl eq_refl eq_refl eq_refl).
Defined.

Lemma build_rejects_with_status_text_witness :
  promise (build (Sample.fails
                    (Some {| data := JNull; statusText := "Bad Gateway" |}))
             Sample.env state Sample.ready (Some Sample.web_build))
    = Rejected (JString "Bad Gateway").
Proof.
  apply (build_rejects_with_status_text
           (Sample.fails
              (Some {| data := JNull; statusText := "Bad Gateway" |}))
           Sample.env state Sample.ready Sample.web_build _
           {| data := JNull; statusText := "Bad Gateway" |}
           eq_refl eq_refl eq_refl eq_refl eq_refl eq_refl).
Defined.

(** ** Runs of [buildAppx] *)

Section AppxRuns.

Variable Number_toString : Z -> Z -> string.
Variable axios_post : Request -> PostOutcome.
Variable env_apiUrl : string.

#[local] Abbreviation buildAppx :=
  (buildAppx Number_toString axios_post env_apiUrl).

Lemma errorMessage_range (text : string) :
  errorMessage text = "Invalid Publisher Identity."
  \/ errorMessage text = "Invalid Version Number."
  \/ errorMessage text = "Package building error.".
Proof.
  unfold errorMessage.
  destruct (includes text publisher_fault); [auto |].
  destruct (includes text version_fault); auto.
Qed.

(** X11.  With a manifest identifier and the four fields, a request the
    service answers fulfils the promise without any call of [reject], and
    [appXLink] becomes the [archive] property of the answer. *)
Theorem buildAppx_succeeds (st : State) (rootState : RootState)
    (params : AppxParams) (req : Request) (result link : JsValue) :
  present (manifestId rootState) = true ->
  present (publisher params) = true ->
  present (publisher_id params) = true ->
  present (package params) = true ->
  present (version params) = true ->
  requests (buildAppx st rootState params) = [req] ->
  axios_post req = Responded result ->
  get_prop result "archive" = Normal link ->
  promise (buildAppx st rootState params) = Fulfilled
  /\ rejections (buildAppx st rootState params) = []
  /\ appXLink (store (buildAppx st rootState params)) = link.
Proof.
  intros Hm H1 H2 H3 H4 Hreq Hpost Harch.
  rewrite buildAppx_request in Hreq. injection Hreq as <-.
  revert Hpost. step_exec. rewrite Hm, H1, H2, H3, H4. simpl.
  destruct (axios_post _) as [res | resp]; intros Hpost;
    try discriminate Hpost.
  injection Hpost as ->. simpl. rewrite Harch. simpl.
  repeat split; reflexivity.
Qed.

(** X12.  No run of [buildAppx] touches [archiveLink], [status] or
    [downloadDisabled]: the only field it can write is [appXLink]. *)
Theorem buildAppx_frame (st : State) (rootState : RootState)
    (params : AppxParams) :
  archiveLink (store (buildAppx st rootState params)) = archiveLink st
  /\ status (store (buildAppx st rootState params)) = status st
  /\ downloadDisabled (store (buildAppx st rootState params))
     = downloadDisabled st.
Proof.
  step_exec. split_run; repeat split; reflexivity.
Qed.

(** X13.  Whatever the service answers, every reason [buildAppx] calls
    [reject] with, and so the reason its promise is rejected with, is one
    of five texts: the two precondition identifiers and the three
    classified messages.  The raw error text of the service never reaches
    the caller. *)
Theorem buildAppx_rejection_reasons (st : State) (rootState : RootState)
    (params : AppxParams) :
  let reasons :=
    map JString [ "error.manifest_required"; "error.fields_required";
                  "Invalid Publisher Identity."; "Invalid Version Number.";
                  "Package building error." ] in
  Forall (fun reason => In reason reasons)
    (rejections (buildAppx st rootState params))
  /\ match promise (buildAppx st rootState params) with
     | Rejected reason => In reason reasons
     | _ => True
     end.
Proof.
  intros reasons. subst reasons. step_exec.
  split_run; (split; [repeat apply Forall_cons; try apply Forall_nil |]);
    simpl; auto 8;
    match goal with
    | |- context [errorMessage ?text] =>
        destruct (errorMessage_range text) as [-> | [-> | ->]]; simpl; auto 8
    end.
Qed.

(** X14.  With a manifest identifier and the four fields, a failure whose
    body is falsy is always the generic message: the text classified is
    then the response object's own, which holds neither signature. *)
Theorem buildAppx_no_body_is_generic (st : State) (rootState : RootState)
    (params : AppxParams) (req : Request) (response : Response) :
  present (manifestId rootState) = true ->
  present (publisher params) = true ->
  present (publisher_id params) = true ->
  present (package params) = true ->
  present (version params) = true ->
  requests (buildAppx st rootState params) = [req] ->
  axios_post req = Failed (Some response) ->
  truthy (data response) = false ->
  promise (buildAppx st rootState params)
    = Rejected (JString "Package building error.").
Proof.
  intros Hm H1 H2 H3 H4 Hreq Hpost Hdata.
  rewrite buildAppx_request in Hreq. injection Hreq as <-.
  revert Hpost. step_exec. rewrite Hm, H1, H2, H3, H4. simpl.
  destruct (axios_post _) as [res | [resp |]]; intros Hpost;
    try discriminate Hpost.
  injection Hpost as ->. simpl. unfold error_text. rewrite Hdata.
  reflexivity.
Qed.

(** X15.  With a manifest identifier and the four fields, a failure that
    has no response, or whose truthy body has no [error] property,
    settles nothing: line 183 throws inside the [catch] block, the promise
    stays pending and [reject] is never called. *)
Theorem buildAppx_unreadable_failure_never_settles (st : State)
    (rootState : RootState) (params : AppxParams) (req : Request)
    (response : option Response) :
  present (manifestId rootState) = true ->
  present (publisher params) = true ->
  present (publisher_id params) = true ->
  present (package params) = true ->
  present (version params) = true ->
  requests (buildAppx st rootState params) = [req] ->
  axios_post req = Failed response ->
  match response with
  | None => True
  | Some r =>
      truthy (data r) = true
      /\ get_prop (data r) "error" = Normal JUndefined
  end ->
  promise (buildAppx st rootState params) = Pending
  /\ rejections (buildAppx st rootState params) = []
  /\ store (buildAppx st rootState params) = st.
Proof.
  intros Hm H1 H2 H3 H4 Hreq Hpost Hresp.
  rewrite buildAppx_request in Hreq. injection Hreq as <-.
  revert Hpost. step_exec. rewrite Hm, H1, H2, H3, H4. simpl.
  destruct (axios_post _) as [res | resp]; intros Hpost;
    try discriminate Hpost.
  injection Hpost as ->. destruct response as [r |]; simpl.
  - destruct Hresp as [Hdata Herr]. unfold error_text.
    rewrite Hdata, Herr. simpl. repeat split; reflexivity.
  - repeat split; reflexivity.
Qed.

(** X16.  A request of [buildAppx] that the service fails never writes
    the publish state, whatever the guards found and whatever the failure
    carries. *)
Theorem buildAppx_failed_request_never_writes (st : State)
    (rootState : RootState) (params : AppxParams) (req : Request)
    (response : option Response) :
  requests (buildAppx st rootState params) = [req] ->
  axios_post req = Failed response ->
  store (buildAppx st rootState params) = st.
Proof.
  intros Hreq Hpost.
  rewrite buildAppx_request in Hreq. injection Hreq as <-.
  revert Hpost. step_exec.
  split_run; intros; try congruence; reflexivity.
Qed.

(** X17.  When the manifest identifier and one of the four fields are
    both missing, [buildAppx] calls [reject] for each, in that order, and
    the caller sees [error.manifest_required]. *)
Theorem buildAppx_first_rejection_wins (st : State) (rootState : RootState)
    (params : AppxParams) :
  present (manifestId rootState) = false ->
  present (publisher params) && present (publisher_id params)
  && present (package params) && present (version params) = false ->
  promise (buildAppx st rootState params)
    = Rejected (JString "error.manifest_required")
  /\ exists later,
       rejections (buildAppx st rootState params)
       = JString "error.manifest_required"
         :: JString "error.fields_required" :: later.
Proof.
  intros Hm Hf.
  assert (G : negb (present (publisher params))
              || negb (present (publisher_id params))
              || negb (present (package params))
              || negb (present (version params)) = true).
  { destruct (present (publisher params)); [| reflexivity].
    destruct (present (publisher_id params)); [| reflexivity].
    destruct (present (package params)); [| reflexivity].
    destruct (present (version params)); [discriminate Hf | reflexivity]. }
  step_exec. rewrite Hm, G. simpl.
  split_run; split; try reflexivity; eexists; reflexivity.
Qed.

End AppxRuns.

Lemma buildAppx_succeeds_witness :
  promise (buildAppx Sample.number_text
             (Sample.answers (Sample.archive_body "https://x/y.appx"))
             Sample.env state Sample.ready Sample.appx) = Fulfilled
  /\ appXLink
       (store (buildAppx Sample.number_text
                 (Sample.answers (Sample.archive_body "https://x/y.appx"))
                 Sample.env state Sample.ready Sample.appx))
     = JString "https://x/y.appx".
Proof.
  destruct (buildAppx_succeeds Sample.number_text
              (Sample.answers (Sample.archive_body "https://x/y.appx"))
              Sample.env state Sample.ready Sample.appx _
              (Sample.archive_body "https://x/y.appx")
              (JString "https://x/y.appx")
              eq_refl eq_refl eq_refl eq_refl eq_refl eq_refl eq_refl eq_refl)
    as (Hp & _ & Hlink).
  split; [exact Hp | exact Hlink].
Defined.

Lemma buildAppx_no_body_is_generic_witness :
  promise (buildAppx Sample.number_text
             (Sample.fails
                (Some {| data := JNull; statusText := "Bad Gateway" |}))
             Sample.env state Sample.ready Sample.appx)
    = Rejected (JString "Package building error.").
Proof.
  apply (buildAppx_no_body_is_generic Sample.number_text
           (Sample.fails
              (Some {| data := JNull; statusText := "Bad Gateway" |}))
           Sample.env state Sample.ready Sample.appx _
           {| data := JNull; statusText := "Bad Gateway" |}
           eq_refl eq_refl eq_refl eq_refl eq_refl eq_refl eq_refl eq_refl).
Defined.

Lemma buildAppx_unreadable_failure_never_settles_witness :
  promise (buildAppx Sample.number_text
             (Sample.fails (Some Sample.timed_out))
             Sample.env state Sample.ready Sample.appx) = Pending
  /\ promise (buildAppx Sample.number_text (Sample.fails None)
                Sample.env state Sample.ready Sample.appx) = Pending.
Proof.
  split.
  - apply (buildAppx_unreadable_failure_never_settles Sample.number_text
             (Sample.fails (Some Sample.timed_out))
             Sample.env state Sample.ready Sample.appx _
             (Some Sample.timed_out)
             eq_refl eq_refl eq_refl eq_refl eq_refl eq_refl eq_refl
             (conj eq_refl eq_refl)).
  - apply (buildAppx_unreadable_failure_never_settles Sample.number_text
             (Sample.fails None)
             Sample.env state Sample.ready Sample.appx _ None
             eq_refl eq_refl eq_refl eq_refl eq_refl eq_refl eq_refl I).
Defined.

Lemma buildAppx_failed_request_never_writes_witness :
  store (buildAppx Sample.number_text
           (Sample.fails (Some Sample.bad_publisher))
           Sample.env state Sample.no_manifest Sample.appx_no_publisher)
    = state.
Proof.
  apply (buildAppx_failed_request_never_writes Sample.number_text
           (Sample.fails (Some Sample.bad_publisher))
           Sample.env state Sample.no_manifest Sample.appx_no_publisher _
           (Some Sample.bad_publisher) eq_refl eq_refl).
Defined.

Lemma buildAppx_first_rejection_wins_witness :
  promise (buildAppx Sample.number_text
             (Sample.answers (Sample.archive_body "https://x/y.appx"))
             Sample.env state Sample.no_manifest Sample.appx_no_publisher)
    = Rejected (JString "error.manifest_required").
Proof.
  apply (buildAppx_first_rejection_wins Sample.number_text
           (Sample.answers (Sample.archive_body "https://x/y.appx"))
           Sample.env state Sample.no_manifest Sample.appx_no_publisher
           eq_refl eq_refl).
Defined.

(** ** Runs of [buildTeams] *)

Section TeamsRuns.

Variable JSON_parse : string -> option JsValue.
Variable axios_post : Request -> PostOutcome.
Variable env_apiUrl : string.

#[local] Abbreviation build := (build axios_post env_apiUrl).
#[local] Abbreviation buildTeams :=
  (buildTeams JSON_parse axios_post env_apiUrl).

(** The executor of [buildTeams] has neither the HTTP client nor [commit]
    in reach. *)
Lemma buildTeams_gate_is_local (st : State) (rootState : RootState)
    (params : TeamsBuildParams) :
  requests (checked (buildTeams st rootState params)) = []
  /\ store (checked (buildTeams st rootState params)) = st.
Proof.
  step_teams. unfold bind, when, throw, lift, ret, reject, resolve, start.
  split_run; split; reflexivity.
Qed.

(** With a manifest identifier and every required field, the executor
    fulfils its promise and the [then] callback dispatches [build]. *)
Lemma buildTeams_gate_open (st : State) (rootState : RootState)
    (params : TeamsBuildParams) (decoded : JsValue) :
  JSON_parse (teams_text (teams_options params)) = Some decoded ->
  forallb (has_field decoded) teams_required = true ->
  present (manifestId rootState) = true ->
  let payload := {| platform := JString platforms.msteams;
                    href := teams_href params;
                    options := teams_options params |} in
  rejections (checked (buildTeams st rootState params)) = []
  /\ dispatched (buildTeams st rootState params) = Some payload
  /\ followed (buildTeams st rootState params)
     = build st rootState (Some payload).
Proof.
  intros Hparse Hall Hm payload. simpl in Hall.
  repeat (apply andb_true_iff in Hall; destruct Hall as [? Hall]).
  repeat match goal with
         | H : has_field _ _ = true |- _ =>
             apply has_field_true in H; destruct H as (? & ? & ?)
         end.
  step_teams. rewrite Hparse.
  unfold bind, when, lift, ret, reject, resolve, start.
  rewrite Hm. simpl.
  repeat match goal with
         | H : get_prop _ _ = Normal _ |- _ => rewrite H; clear H; simpl
         end.
  repeat match goal with
         | H : falsy _ = false |- _ => rewrite H; clear H; simpl
         end.
  repeat split; reflexivity.
Qed.

(** X18.  Without a manifest identifier [buildTeams] is rejected with
    [error.manifest_required] whatever its options are (well formed, not
    JSON at all, or absent): nothing is dispatched to [build], no request
    is sent and the state is not written. *)
Theorem buildTeams_without_manifest (st : State) (rootState : RootState)
    (params : TeamsBuildParams) :
  present (manifestId rootState) = false ->
  promise (followed (buildTeams st rootState params))
    = Rejected (JString "error.manifest_required")
  /\ dispatched (buildTeams st rootState params) = None
  /\ requests (followed (buildTeams st rootState params)) = []
  /\ store (followed (buildTeams st rootState params)) = st.
Proof.
  intros Hm. step_teams.
  unfold bind, when, throw, lift, ret, reject, resolve, start.
  rewrite Hm. simpl. split_run; repeat split; reflexivity.
Qed.

(** X19.  The validation of [buildTeams] never reaches the service or the
    state: its own executor sends no request and writes nothing, and when
    nothing is dispatched the returned promise is the executor's own;
    otherwise it is the promise of the dispatched [build], started from
    the same state. *)
Theorem buildTeams_validation_is_local (st : State) (rootState : RootState)
    (params : TeamsBuildParams) :
  requests (checked (buildTeams st rootState params)) = []
  /\ store (checked (buildTeams st rootState params)) = st
  /\ match dispatched (buildTeams st rootState params) with
     | None => followed (buildTeams st rootState params)
               = checked (buildTeams st rootState params)
     | Some payload =>
         followed (buildTeams st rootState params)
         = build st rootState (Some payload)
     end.
Proof.
  destruct (buildTeams_gate_is_local st rootState params) as [Hreq Hst].
  split; [exact Hreq |]. split; [exact Hst |].
  revert Hst. step_teams.
  match goal with
  | |- context [promise ?gate] => generalize gate
  end.
  intros gate. destruct (promise gate); simpl; intros Hst;
    try reflexivity.
  rewrite Hst. reflexivity.
Qed.

(** X20.  When [buildTeams] delegates, the one request of the delegated
    [build] names the single platform [msteams], has [msteams] as
    [dirSuffix], and carries the options as they were given, undecoded, as
    [parameters]. *)
Theorem buildTeams_delegated_request (st : State) (rootState : RootState)
    (params : TeamsBuildParams) (decoded : JsValue) :
  JSON_parse (teams_text (teams_options params)) = Some decoded ->
  forallb (has_field decoded) teams_required = true ->
  present (manifestId rootState) = true ->
  exists req,
    requests (followed (buildTeams st rootState params)) = [req]
    /\ get_prop (body req) "platforms"
       = Normal (JArray [ JString platforms.msteams ])
    /\ get_prop (body req) "dirSuffix" = Normal (JString platforms.msteams)
    /\ get_prop (body req) "parameters"
       = Normal (of_options (teams_options params)).
Proof.
  intros Hparse Hall Hm.
  destruct (buildTeams_gate_open st rootState params decoded Hparse Hall Hm)
    as (_ & _ & ->).
  eexists. split; [apply build_request |].
  repeat split; reflexivity.
Qed.

(** X21.  Only the first option is decoded: the options after it change
    nothing in what the validation does. *)
Theorem buildTeams_first_option_only (st : State) (rootState : RootState)
    (hr text : string) (rest rest' : list string) :
  checked (buildTeams st rootState
             {| teams_href := hr; teams_options := Some (text :: rest) |})
  = checked (buildTeams st rootState
               {| teams_href := hr; teams_options := Some (text :: rest') |}).
Proof.
  step_teams. simpl.
  match goal with
  | |- checked (match promise ?gate with _ => _ end) = _ =>
      destruct (promise gate); reflexivity
  end.
Qed.

(** X22.  An empty options array is not read as absent options: its
    missing first element goes to the decoder as the text [undefined].
    With a manifest identifier and a decoder that refuses that text, the
    promise stays pending and nothing is dispatched. *)
Theorem buildTeams_empty_options_array (st : State) (rootState : RootState)
    (hr : string) :
  present (manifestId rootState) = true ->
  JSON_parse "undefined" = None ->
  promise (followed (buildTeams st rootState
                       {| teams_href := hr; teams_options := Some [] |}))
    = Pending
  /\ rejections (followed (buildTeams st rootState
                             {| teams_href := hr; teams_options := Some [] |}))
     = []
  /\ dispatched (buildTeams st rootState
                   {| teams_href := hr; teams_options := Some [] |}) = None.
Proof.
  intros Hm Hparse. step_teams.
  unfold bind, when, throw, lift, ret, start.
  simpl. rewrite Hm, Hparse. simpl. repeat split; reflexivity.
Qed.

(** X23.  [buildTeams] does not check the service-worker identifier.  With
    a manifest identifier and every required field but no service-worker
    identifier it delegates, and it is the delegated [build] that rejects
    with [error.manifest_required], after its request has gone out. *)
Theorem buildTeams_without_worker (st : State) (rootState : RootState)
    (params : TeamsBuildParams) (decoded : JsValue) :
  JSON_parse (teams_text (teams_options params)) = Some decoded ->
  forallb (has_field decoded) teams_required = true ->
  present (manifestId rootState) = true ->
  present (serviceworker rootState) = false ->
  rejections (checked (buildTeams st rootState params)) = []
  /\ promise (followed (buildTeams st rootState params))
     = Rejected (JString "error.manifest_required")
  /\ exists req,
       requests (followed (buildTeams st rootState params)) = [req].
Proof.
  intros Hparse Hall Hm Hs.
  destruct (buildTeams_gate_open st rootState params decoded Hparse Hall Hm)
    as (Hrej & _ & ->).
  split; [exact Hrej |]. split.
  - apply build_manifest_required. rewrite Hm, Hs. reflexivity.
  - eexists. apply build_request.
Qed.

(** X24.  With both identifiers and every required field, a request the
    service answers with an archive link fulfils the promise [buildTeams]
    returns and writes the link to [archiveLink]. *)
Theorem buildTeams_succeeds (st : State) (rootState : RootState)
    (params : TeamsBuildParams) (decoded : JsValue) (req : Request)
    (result link : JsValue) :
  JSON_parse (teams_text (teams_options params)) = Some decoded ->
  forallb (has_field decoded) teams_required = true ->
  present (manifestId rootState) = true ->
  present (serviceworker rootState) = true ->
  requests (followed (buildTeams st rootState params)) = [req] ->
  axios_post req = Responded result ->
  get_prop result "archive" = Normal link ->
  promise (followed (buildTeams st rootState params)) = Fulfilled
  /\ archiveLink (store (followed (buildTeams st rootState params))) = link.
Proof.
  intros Hparse Hall Hm Hs.
  destruct (buildTeams_gate_open st rootState params decoded Hparse Hall Hm)
    as (_ & _ & ->).
  intros Hreq Hpost Harch.
  destruct (build_answered_run axios_post env_apiUrl st rootState
              {| platform := JString platforms.msteams;
                 href := teams_href params;
                 options := teams_options params |}
              req result link Hm Hs eq_refl Hreq Hpost Harch)
    as (Hp & _ & Hlink).
  split; [exact Hp | exact Hlink].
Qed.

End TeamsRuns.

Lemma buildTeams_without_manifest_witness :
  promise
    (followed (buildTeams Json.parse
                 (Sample.answers (Sample.archive_body "https://x/y.zip"))
                 Sample.env state Sample.no_manifest
                 (Sample.teams "{not json")))
    = Rejected (JString "error.manifest_required").
Proof.
  apply (buildTeams_without_manifest Json.parse
           (Sample.answers (Sample.archive_body "https://x/y.zip"))
           Sample.env state Sample.no_manifest (Sample.teams "{not json")
           eq_refl).
Defined.

Lemma buildTeams_delegated_request_witness :
  exists req,
    requests
      (followed (buildTeams Json.parse
                   (Sample.answers (Sample.archive_body "https://x/y.zip"))
                   Sample.env state Sample.ready
                   (Sample.teams Sample.teams_json))) = [req]
    /\ get_prop (body req) "parameters"
       = Normal (JArray [ JString Sample.teams_json ]).
Proof.
  destruct (buildTeams_delegated_request Json.parse
              (Sample.answers (Sample.archive_body "https://x/y.zip"))
              Sample.env state Sample.ready (Sample.teams Sample.teams_json)
              Sample.teams_decoded parse_teams_json eq_refl eq_refl)
    as (req & Hreq & _ & _ & Hparams).
  exists req. split; [exact Hreq | exact Hparams].
Defined.

Lemma buildTeams_empty_options_array_witness :
  promise
    (followed (buildTeams Json.parse
                 (Sample.answers (Sample.archive_body "https://x/y.zip"))
                 Sample.env state Sample.ready
                 {| teams_href := Sample.site; teams_options := Some [] |}))
    = Pending.
Proof.
  apply (buildTeams_empty_options_array Json.parse
           (Sample.answers (Sample.archive_body "https://x/y.zip"))
           Sample.env state Sample.ready Sample.site eq_refl eq_refl).
Defined.

Lemma buildTeams_without_worker_witness :
  promise
    (followed (buildTeams Json.parse
                 (Sample.answers (Sample.archive_body "https://x/y.zip"))
                 Sample.env state Sample.no_worker
                 (Sample.teams Sample.teams_json)))
    = Rejected (JString "error.manifest_required").
Proof.
  apply (buildTeams_without_worker Json.parse
           (Sample.answers (Sample.archive_body "https://x/y.zip"))
           Sample.env state Sample.no_worker (Sample.teams Sample.teams_json)
           Sample.teams_decoded parse_teams_json eq_refl eq_refl eq_refl).
Defined.

Lemma buildTeams_succeeds_witness :
  promise
    (followed (buildTeams Json.parse
                 (Sample.answers (Sample.archive_body "https://x/y.zip"))
                 Sample.env state Sample.ready
                 (Sample.teams Sample.teams_json))) = Fulfilled
  /\ archiveLink
       (store
          (followed (buildTeams Json.parse
                       (Sample.answers (Sample.archive_body "https://x/y.zip"))
                       Sample.env state Sample.ready
                       (Sample.teams Sample.teams_json))))
     = JString "https://x/y.zip".
Proof.
  apply (buildTeams_succeeds Json.parse
           (Sample.answers (Sample.archive_body "https://x/y.zip"))
           Sample.env state Sample.ready (Sample.teams Sample.teams_json)
           Sample.teams_decoded
           {| url := apiUrl Sample.env ++ "/" ++ "m-1" ++ "/build?ids=" ++ "3"
                     ++ "&href=" ++ Sample.site ++ LF ++ "                ";
              body := JObject
                [ ("platforms", JArray [ JString platforms.msteams ]);
                  ("dirSuffix", JString platforms.msteams);
                  ("parameters", JArray [ JString Sample.teams_json ]) ] |}
           (Sample.archive_body "https://x/y.zip") (JString "https://x/y.zip")
           parse_teams_json eq_refl eq_refl eq_refl).
  - vm_compute. reflexivity.
  - reflexivity.
  - reflexivity.
Defined.
